(** * Blue/Green deployment model of er-aws-rds

    A shallow embedding of [hooks/utils/models.py], [hooks/utils/semantic.py],
    [hooks/utils/wait.py], [hooks/utils/blue_green_deployment_model.py],
    [hooks/utils/blue_green_deployment_manager.py] and the
    [create_blue_green_deployment] call of [hooks/utils/aws_api.py].

    Python strings are [String.string] (ASCII), Python ints are [Z],
    dictionaries read from the RDS API are records (a missing key of the
    boto3 TypedDicts is not modelled: every field the code reads is present),
    [dict[str, T]] values that are looked up by key are association lists.
    Raised exceptions are the [Err] branch of [result]. *)

From Stdlib Require Import String Ascii ZArith List Bool Lia Sorting.Sorted.
Import ListNotations.
Open Scope string_scope.
Open Scope Z_scope.

(** ** hooks/utils/models.py : State and ActionType *)

Inductive State :=
| INIT
| NOT_ENABLED
| PROVISIONING
| AVAILABLE
| SWITCHOVER_IN_PROGRESS
| SWITCHOVER_COMPLETED
| DELETING_SOURCE_DB_INSTANCES
| SOURCE_DB_INSTANCES_DELETED
| DELETING
| NO_OP.

Definition State_eq_dec (a b : State) : {a = b} + {a <> b}.
Proof. decide equality. Defined.

Definition State_eqb (a b : State) : bool :=
  if State_eq_dec a b then true else false.

Inductive ActionType :=
| AT_NO_OP
| AT_CREATE
| AT_WAIT_FOR_AVAILABLE
| AT_SWITCHOVER
| AT_WAIT_FOR_SWITCHOVER_COMPLETED
| AT_DELETE_SOURCE_DB_INSTANCE
| AT_WAIT_FOR_SOURCE_DB_INSTANCES_DELETED
| AT_DELETE_WITHOUT_SWITCHOVER
| AT_DELETE
| AT_WAIT_FOR_DELETED.

Definition ActionType_eq_dec (a b : ActionType) : {a = b} + {a <> b}.
Proof. decide equality. Defined.

Definition ActionType_eqb (a b : ActionType) : bool :=
  if ActionType_eq_dec a b then true else false.

(** ** Exceptions raised by the code *)

Inductive Error :=
| ValueError_UnexpectedStatus (status : string)
| ValueError_DBInstanceNotFound (identifier : string)
| ValueError_TargetParameterGroupNotFound (name : string)
| ValueError_DeletionProtection
| ValueError_BackupRetentionPeriod
| ValueError_TargetEngineVersionNotValid (version : string)
| ValueError_PostgresNotSupported (version : string)
| ValueError_MysqlNotSupported (version : string)
| ValueError_UnsupportedEngine (engine : string)
| ValueError_SourceParameterGroupNotInSync
| ValueError_SemverParse (version : string)
| ValueError_InvalidNextState (next_state state : State)
| KeyError_State (state : State)
| KeyError (key : string)
| AssertionError
| IndexError
| TimeoutError (timeout : Z)
(** [time.sleep] with a negative length *)
| ValueError_NegativeSleepLength
(** the [while] loop of a poll has not finished within the given fuel *)
| Diverged.

Inductive result (A : Type) :=
| Ok (a : A)
| Err (e : Error).
Arguments Ok {A} a.
Arguments Err {A} e.

Definition bind {A B} (r : result A) (f : A -> result B) : result B :=
  match r with
  | Ok a => f a
  | Err e => Err e
  end.

Notation "x <- r ;; k" := (bind r (fun x => k))
  (at level 61, r at next level, right associativity).

(** ** Small string helpers *)

Definition is_digit (c : ascii) : bool :=
  let n := nat_of_ascii c in (48 <=? n)%nat && (n <=? 57)%nat.

Definition is_alpha (c : ascii) : bool :=
  let n := nat_of_ascii c in
  ((65 <=? n)%nat && (n <=? 90)%nat) || ((97 <=? n)%nat && (n <=? 122)%nat).

(** [[0-9a-zA-Z-]] *)
Definition is_ident_char (c : ascii) : bool :=
  is_digit c || is_alpha c || Ascii.eqb c "-"%char.

Fixpoint str_forallb (p : ascii -> bool) (s : string) : bool :=
  match s with
  | EmptyString => true
  | String c s' => p c && str_forallb p s'
  end.

Fixpoint str_existsb (p : ascii -> bool) (s : string) : bool :=
  match s with
  | EmptyString => false
  | String c s' => p c || str_existsb p s'
  end.

(** [s.split(sep)] *)
Fixpoint split_on (sep : ascii) (s : string) : list string :=
  match s with
  | EmptyString => [EmptyString]
  | String c s' =>
      if Ascii.eqb c sep then EmptyString :: split_on sep s'
      else match split_on sep s' with
           | w :: ws => String c w :: ws
           | [] => [String c EmptyString]
           end
  end.

(** [s.partition(sep)] when [sep] occurs: the text before and after its
    first occurrence. *)
Fixpoint split_first (sep : ascii) (s : string) : option (string * string) :=
  match s with
  | EmptyString => None
  | String c s' =>
      if Ascii.eqb c sep then Some (EmptyString, s')
      else match split_first sep s' with
           | Some (l, r) => Some (String c l, r)
           | None => None
           end
  end.

Fixpoint digits_value_aux (acc : Z) (s : string) : Z :=
  match s with
  | EmptyString => acc
  | String c s' =>
      digits_value_aux (acc * 10 + Z.of_nat (nat_of_ascii c - 48)) s'
  end.

(** [int(s)] for a string of ASCII digits *)
Definition digits_value (s : string) : Z := digits_value_aux 0 s.

(** ** hooks/utils/semantic.py : parse_semver

    [semver.Version.parse(version, optional_minor_and_patch=True)] matches
    the regular expression: a numeric major, optionally followed by
    '.' and a numeric minor, optionally followed by '.' and a numeric patch,
    then optionally '-' and a prerelease, then optionally '+' and a build,
    then the end of the string.  A numeric part is "0" or a digit string
    not starting with 0.  A prerelease is a dot separated list of
    identifiers, each numeric or made of [[0-9a-zA-Z-]] with at least one
    non-digit; a build is a dot separated list of non-empty
    [[0-9a-zA-Z-]] words.  A missing minor or patch is 0.  No character
    class of the pattern contains '+', and the core contains no '-', so the
    first '+' starts the build and the first '-' before it starts the
    prerelease. *)

Record Version := {
  major : Z;
  minor : Z;
  patch : Z;
  prerelease : option string;
  build : option string
}.

(** a numeric identifier: "0" or digits without a leading 0 *)
Definition numeric_ident (s : string) : bool :=
  match s with
  | EmptyString => false
  | String c rest =>
      str_forallb is_digit s && (negb (Ascii.eqb c "0"%char) || String.eqb rest "")
  end.

(** a prerelease identifier: numeric, or [[0-9a-zA-Z-]] characters with a non-digit *)
Definition prerelease_ident (s : string) : bool :=
  numeric_ident s ||
  (str_forallb is_ident_char s && str_existsb (fun c => negb (is_digit c)) s).

(** a build identifier: one or more [[0-9a-zA-Z-]] characters *)
Definition build_ident (s : string) : bool :=
  negb (String.eqb s "") && str_forallb is_ident_char s.

Definition parse_core (s : string) : option (Z * Z * Z) :=
  match split_on "." s with
  | [a] => if numeric_ident a then Some (digits_value a, 0, 0) else None
  | [a; b] =>
      if numeric_ident a && numeric_ident b
      then Some (digits_value a, digits_value b, 0) else None
  | [a; b; c] =>
      if numeric_ident a && numeric_ident b && numeric_ident c
      then Some (digits_value a, digits_value b, digits_value c) else None
  | _ => None
  end.

Definition parse_exact (s : string) : option Version :=
  let '(lhs, bld) :=
    match split_first "+" s with
    | Some (l, b) => (l, Some b)
    | None => (s, None)
    end in
  let '(core, pre) :=
    match split_first "-" lhs with
    | Some (c, p) => (c, Some p)
    | None => (lhs, None)
    end in
  let pre_ok := match pre with
                | Some p => forallb prerelease_ident (split_on "." p)
                | None => true end in
  let bld_ok := match bld with
                | Some b => forallb build_ident (split_on "." b)
                | None => true end in
  if pre_ok && bld_ok then
    match parse_core core with
    | Some (ma, mi, pa) =>
        Some {| major := ma; minor := mi; patch := pa;
                prerelease := pre; build := bld |}
    | None => None
    end
  else None.

Definition newline : ascii := ascii_of_nat 10.

Fixpoint strip_final_newline (s : string) : option string :=
  match s with
  | EmptyString => None
  | String c EmptyString => if Ascii.eqb c newline then Some EmptyString else None
  | String c s' =>
      match strip_final_newline s' with
      | Some t => Some (String c t)
      | None => None
      end
  end.

(** Python's [$] also matches just before a final newline. *)
Definition parse_semver (version : string) : result Version :=
  match parse_exact version with
  | Some v => Ok v
  | None =>
      match strip_final_newline version with
      | Some t => match parse_exact t with
                  | Some v => Ok v
                  | None => Err (ValueError_SemverParse version)
                  end
      | None => Err (ValueError_SemverParse version)
      end
  end.

(** Precedence of [semver.Version.compare]: major, minor and patch
    numerically; then a version without prerelease is greater than one with
    a prerelease; two prereleases compare identifier by identifier, numeric
    identifiers numerically and below alphanumeric ones, alphanumeric ones
    in ASCII order, a prefix being smaller. *)

Fixpoint ascii_string_compare (a b : string) : comparison :=
  match a, b with
  | EmptyString, EmptyString => Eq
  | EmptyString, String _ _ => Lt
  | String _ _, EmptyString => Gt
  | String x a', String y b' =>
      match Nat.compare (nat_of_ascii x) (nat_of_ascii y) with
      | Eq => ascii_string_compare a' b'
      | c => c
      end
  end.

Definition prerelease_ident_compare (a b : string) : comparison :=
  match str_forallb is_digit a, str_forallb is_digit b with
  | true, true => Z.compare (digits_value a) (digits_value b)
  | true, false => Lt
  | false, true => Gt
  | false, false => ascii_string_compare a b
  end.

Fixpoint prerelease_parts_compare (a b : list string) : comparison :=
  match a, b with
  | [], [] => Eq
  | [], _ :: _ => Lt
  | _ :: _, [] => Gt
  | x :: a', y :: b' =>
      match prerelease_ident_compare x y with
      | Eq => prerelease_parts_compare a' b'
      | c => c
      end
  end.

Definition version_compare (v w : Version) : comparison :=
  match Z.compare (major v) (major w) with
  | Eq =>
      match Z.compare (minor v) (minor w) with
      | Eq =>
          match Z.compare (patch v) (patch w) with
          | Eq =>
              match prerelease v, prerelease w with
              | None, None => Eq
              | None, Some _ => Gt
              | Some _, None => Lt
              | Some p, Some q =>
                  prerelease_parts_compare (split_on "." p) (split_on "." q)
              end
          | c => c
          end
      | c => c
      end
  | c => c
  end.

(** [v >= w] *)
Definition version_ge (v w : Version) : bool :=
  match version_compare v w with
  | Lt => false
  | _ => true
  end.

(** ** BlueGreenDeploymentModel._is_mysql_version_supported *)

Definition mysql_supported_versions : list string := ["5.7"; "8.0"; "8.4"].

Fixpoint map_result {A B} (f : A -> result B) (l : list A) : result (list B) :=
  match l with
  | [] => Ok []
  | x :: l' => y <- f x ;; ys <- map_result f l' ;; Ok (y :: ys)
  end.

Definition _is_mysql_version_supported (version : string) : result bool :=
  target_version <- parse_semver version ;;
  supported_versions <- map_result parse_semver mysql_supported_versions ;;
  Ok (existsb (fun v => (major target_version =? major v)
                        && (minor target_version =? minor v))
              supported_versions).

(** ** BlueGreenDeploymentModel._is_postgres_version_supported *)

Definition postgres_min_supported_versions : list string :=
  ["11.21"; "12.16"; "13.12"; "14.9"; "15.4"; "16.1"].

Definition _is_postgres_version_supported (version : string) : result bool :=
  target_version <- parse_semver version ;;
  min_supported_versions <- map_result parse_semver postgres_min_supported_versions ;;
  match last (map Some min_supported_versions) None with
  | None => Err IndexError
  | Some last_min =>
      if version_ge target_version last_min then Ok true
      else Ok (existsb (fun v => (major target_version =? major v)
                                 && (minor v <=? minor target_version))
                       min_supported_versions)
  end.

(** ** Cloud snapshots (boto3 TypedDicts of mypy_boto3_rds) *)

Record DBParameterGroupStatus := {
  DBParameterGroupName : string;
  ParameterApplyStatus : string
}.

Record DBInstance := {
  DBInstanceIdentifier : string;
  DBInstanceArn : string;
  DBInstanceStatus : string;
  DeletionProtection : bool;
  BackupRetentionPeriod : Z;
  Engine : string;
  EngineVersion : string;
  DBInstanceClass : string;
  StorageType : string;
  (* absent from the response for some storage types (RDS reports no
     [Iops] for gp2 or magnetic storage) *)
  StorageThroughput : option Z;
  AllocatedStorage : Z;
  Iops : option Z;
  DBParameterGroups : list DBParameterGroupStatus
}.

(** [DBParameterGroupTypeDef]: the model only tests its presence. *)
Record DBParameterGroup := {
  pg_DBParameterGroupName : string
}.

(** [UpgradeTargetTypeDef] *)
Record UpgradeTarget := {
  ut_EngineVersion : string;
  IsMajorVersionUpgrade : bool
}.

(** [SwitchoverDetailTypeDef] *)
Record SwitchoverDetail := {
  SourceMember : option string;
  TargetMember : option string
}.

(** [BlueGreenDeploymentTypeDef]; a missing [SwitchoverDetails] key is the
    empty list, as [.get("SwitchoverDetails", [])] reads it. *)
Record BlueGreenDeploymentTypeDef := {
  BlueGreenDeploymentIdentifier : string;
  Status : string;
  SwitchoverDetails : list SwitchoverDetail
}.

(** ** er_aws_rds/input.py : the configuration *)

Module ParameterGroup.
Record t := {
  family : string;
  name : option string
}.
End ParameterGroup.

Module BlueGreenDeploymentTarget.
Record t := {
  allocated_storage : option Z;
  engine_version : option string;
  instance_class : option string;
  iops : option Z;
  parameter_group : option ParameterGroup.t;
  storage_throughput : option Z;
  storage_type : option string
}.

(** [BlueGreenDeploymentTarget()] *)
Definition default : t :=
  {| allocated_storage := None; engine_version := None;
     instance_class := None; iops := None; parameter_group := None;
     storage_throughput := None; storage_type := None |}.
End BlueGreenDeploymentTarget.

Module BlueGreenDeployment.
Record t := {
  enabled : bool;
  switchover : bool;
  delete : bool;
  target : option BlueGreenDeploymentTarget.t
}.
End BlueGreenDeployment.

(** ** hooks/utils/models.py : CreateBlueGreenDeploymentParams and actions *)

Module CreateBlueGreenDeploymentParams.
Record t := {
  name : string;
  source_arn : string;
  allocated_storage : option Z;
  engine_version : option string;
  instance_class : option string;
  iops : option Z;
  parameter_group_name : option string;
  storage_throughput : option Z;
  storage_type : option string;
  tags : option (list (string * string))
}.
End CreateBlueGreenDeploymentParams.

(** [BaseAction] and its subclasses: only [CreateAction] carries a payload. *)
Record BaseAction := {
  type : ActionType;
  next_state : State;
  payload : option CreateBlueGreenDeploymentParams.t
}.

Definition NoOpAction (ns : State) : BaseAction :=
  {| type := AT_NO_OP; next_state := ns; payload := None |}.
Definition CreateAction (p : CreateBlueGreenDeploymentParams.t) (ns : State) : BaseAction :=
  {| type := AT_CREATE; next_state := ns; payload := Some p |}.
Definition SimpleAction (t : ActionType) (ns : State) : BaseAction :=
  {| type := t; next_state := ns; payload := None |}.

(** ** hooks/utils/blue_green_deployment_model.py : BlueGreenDeploymentModel *)

Record BlueGreenDeploymentModel := {
  state : State;
  db_instance_identifier : string;
  config : BlueGreenDeployment.t;
  db_instance : option DBInstance;
  target_db_parameter_group : option DBParameterGroup;
  blue_green_deployment : option BlueGreenDeploymentTypeDef;
  source_db_instances : list DBInstance;
  target_db_instances : list DBInstance;
  tags : option (list (string * string));
  valid_upgrade_targets : list (string * UpgradeTarget)
}.

Definition set_state (m : BlueGreenDeploymentModel) (s : State) : BlueGreenDeploymentModel :=
  {| state := s;
     db_instance_identifier := db_instance_identifier m;
     config := config m;
     db_instance := db_instance m;
     target_db_parameter_group := target_db_parameter_group m;
     blue_green_deployment := blue_green_deployment m;
     source_db_instances := source_db_instances m;
     target_db_instances := target_db_instances m;
     tags := tags m;
     valid_upgrade_targets := valid_upgrade_targets m |}.

(** [key in d] and [d[key]] for a [dict[str, T]] *)
Fixpoint dict_get {T} (key : string) (d : list (string * T)) : option T :=
  match d with
  | [] => None
  | (k, v) :: d' => if String.eqb k key then Some v else dict_get key d'
  end.

(** truthiness of an optional string: [None] and [""] are false *)
Definition truthy_str (o : option string) : option string :=
  match o with
  | Some s => if String.eqb s "" then None else Some s
  | None => None
  end.

Definition is_blue_green_deployment_available (m : BlueGreenDeploymentModel) : bool :=
  match blue_green_deployment m with
  | Some b =>
      String.eqb (Status b) "AVAILABLE"
      && forallb (fun db => String.eqb (DBInstanceStatus db) "available")
                 (target_db_instances m)
  | None => false
  end.

Definition _init_state (m : BlueGreenDeploymentModel) : result BlueGreenDeploymentModel :=
  match blue_green_deployment m with
  | None => Ok (set_state m INIT)
  | Some b =>
      let status := Status b in
      if String.eqb status "PROVISIONING" then Ok (set_state m PROVISIONING)
      else if String.eqb status "AVAILABLE" then
        Ok (set_state m (if is_blue_green_deployment_available m
                         then AVAILABLE else PROVISIONING))
      else if String.eqb status "SWITCHOVER_IN_PROGRESS" then
        Ok (set_state m SWITCHOVER_IN_PROGRESS)
      else if String.eqb status "SWITCHOVER_COMPLETED" then
        match source_db_instances m with
        | [] => Ok (set_state m SOURCE_DB_INSTANCES_DELETED)
        | srcs =>
            if existsb (fun db => String.eqb (DBInstanceStatus db) "deleting") srcs
            then Ok (set_state m DELETING_SOURCE_DB_INSTANCES)
            else Ok (set_state m SWITCHOVER_COMPLETED)
        end
      else if String.eqb status "DELETING" then Ok (set_state m DELETING)
      else Err (ValueError_UnexpectedStatus status)
  end.

Definition _validate_db_instance_exist (m : BlueGreenDeploymentModel) : result BlueGreenDeploymentModel :=
  match db_instance m with
  | None => Err (ValueError_DBInstanceNotFound (db_instance_identifier m))
  | Some _ => Ok m
  end.

Definition _validate_target_parameter_group (m : BlueGreenDeploymentModel) : result BlueGreenDeploymentModel :=
  match BlueGreenDeployment.target (config m) with
  | Some t =>
      match BlueGreenDeploymentTarget.parameter_group t with
      | Some pg =>
          match truthy_str (ParameterGroup.name pg), target_db_parameter_group m with
          | Some parameter_group_name, None =>
              Err (ValueError_TargetParameterGroupNotFound parameter_group_name)
          | _, _ => Ok m
          end
      | None => Ok m
      end
  | None => Ok m
  end.

Definition _validate_deletion_protection (m : BlueGreenDeploymentModel) : result BlueGreenDeploymentModel :=
  match db_instance m with
  | Some inst => if DeletionProtection inst then Err ValueError_DeletionProtection else Ok m
  | None => Ok m
  end.

Definition _validate_backup_retention_period (m : BlueGreenDeploymentModel) : result BlueGreenDeploymentModel :=
  match db_instance m with
  | Some inst =>
      if BackupRetentionPeriod inst <=? 0 then Err ValueError_BackupRetentionPeriod else Ok m
  | None => Ok m
  end.

(** [assert self.db_instance] fails with an AssertionError; the validators
    run in order, so it never fires after [_validate_db_instance_exist]. *)
Definition _get_target_engine_version (m : BlueGreenDeploymentModel) : option string :=
  match option_map BlueGreenDeploymentTarget.engine_version (BlueGreenDeployment.target (config m)) with
  | Some (Some v) => if String.eqb v "" then option_map EngineVersion (db_instance m) else Some v
  | _ => option_map EngineVersion (db_instance m)
  end.

Definition _validate_version_upgrade (m : BlueGreenDeploymentModel) : result BlueGreenDeploymentModel :=
  match _get_target_engine_version m with
  | None => Err AssertionError
  | Some target_engine_version =>
      match dict_get target_engine_version (valid_upgrade_targets m) with
      | Some _ => Ok m
      | None => Err (ValueError_TargetEngineVersionNotValid target_engine_version)
      end
  end.

Definition _validate_supported_engine_version (m : BlueGreenDeploymentModel) : result BlueGreenDeploymentModel :=
  match _get_target_engine_version m, db_instance m with
  | Some target_engine_version, Some inst =>
      match dict_get target_engine_version (valid_upgrade_targets m) with
      | None => Err (KeyError target_engine_version)
      | Some upgrade_target =>
          let engine := Engine inst in
          let engine_version := EngineVersion inst in
          if String.eqb engine "postgres" then
            if IsMajorVersionUpgrade upgrade_target then
              supported <- _is_postgres_version_supported engine_version ;;
              if supported then Ok m
              else Err (ValueError_PostgresNotSupported engine_version)
            else Ok m
          else if String.eqb engine "mysql" then
            supported <- _is_mysql_version_supported engine_version ;;
            if supported then Ok m
            else Err (ValueError_MysqlNotSupported engine_version)
          else Err (ValueError_UnsupportedEngine engine)
      end
  | _, _ => Err AssertionError
  end.

Definition _validate_source_parameter_group_status (m : BlueGreenDeploymentModel) : result BlueGreenDeploymentModel :=
  match db_instance m with
  | Some inst =>
      if existsb (fun pg => negb (String.eqb (ParameterApplyStatus pg) "in-sync"))
                 (DBParameterGroups inst)
      then Err ValueError_SourceParameterGroupNotInSync
      else Ok m
  | None => Err AssertionError
  end.

(** The [model_validator(mode="after")] hooks, in their order of
    definition, up to and including [_validate_version_upgrade]. *)
Definition validate_before_engine_version (m : BlueGreenDeploymentModel) : result BlueGreenDeploymentModel :=
  m <- _init_state m ;;
  m <- _validate_db_instance_exist m ;;
  m <- _validate_target_parameter_group m ;;
  m <- _validate_deletion_protection m ;;
  m <- _validate_backup_retention_period m ;;
  _validate_version_upgrade m.

(** [BlueGreenDeploymentModel(...)]: every validator in order. *)
Definition validate_model (m : BlueGreenDeploymentModel) : result BlueGreenDeploymentModel :=
  m <- validate_before_engine_version m ;;
  m <- _validate_supported_engine_version m ;;
  _validate_source_parameter_group_status m.

(** ** Planning *)

(** The Python values compared by [_no_changes]. *)
Inductive PyValue :=
| PStr (s : string)
| PInt (z : Z).

Definition PyValue_eqb (a b : PyValue) : bool :=
  match a, b with
  | PStr x, PStr y => String.eqb x y
  | PInt x, PInt y => Z.eqb x y
  | _, _ => false
  end.

Definition target_or_default (m : BlueGreenDeploymentModel) : BlueGreenDeploymentTarget.t :=
  match BlueGreenDeployment.target (config m) with
  | Some t => t
  | None => BlueGreenDeploymentTarget.default
  end.

(** [target.parameter_group.name if target.parameter_group else None] *)
Definition target_parameter_group_name (t : BlueGreenDeploymentTarget.t) : option string :=
  match BlueGreenDeploymentTarget.parameter_group t with
  | Some pg => ParameterGroup.name pg
  | None => None
  end.

Definition desired_instance (t : BlueGreenDeploymentTarget.t) : list (string * option PyValue) :=
  [("parameter_group_name", option_map PStr (target_parameter_group_name t));
   ("iops", option_map PInt (BlueGreenDeploymentTarget.iops t));
   ("engine_version", option_map PStr (BlueGreenDeploymentTarget.engine_version t));
   ("instance_class", option_map PStr (BlueGreenDeploymentTarget.instance_class t));
   ("storage_throughput", option_map PInt (BlueGreenDeploymentTarget.storage_throughput t));
   ("storage_type", option_map PStr (BlueGreenDeploymentTarget.storage_type t));
   ("allocated_storage", option_map PInt (BlueGreenDeploymentTarget.allocated_storage t))].

(** The dict literal is evaluated in order:
    [self.db_instance["DBParameterGroups"][0]] raises IndexError on an
    empty list, then [self.db_instance["Iops"]] and
    [self.db_instance["StorageThroughput"]] raise KeyError when the
    response has no such key. *)
Definition current_instance (inst : DBInstance) : result (list (string * PyValue)) :=
  match DBParameterGroups inst with
  | [] => Err IndexError
  | pg0 :: _ =>
      match Iops inst with
      | None => Err (KeyError "Iops")
      | Some iops =>
          match StorageThroughput inst with
          | None => Err (KeyError "StorageThroughput")
          | Some storage_throughput =>
              Ok [("parameter_group_name", PStr (DBParameterGroupName pg0));
                  ("iops", PInt iops);
                  ("engine_version", PStr (EngineVersion inst));
                  ("instance_class", PStr (DBInstanceClass inst));
                  ("storage_throughput", PInt storage_throughput);
                  ("storage_type", PStr (StorageType inst));
                  ("allocated_storage", PInt (AllocatedStorage inst))]
          end
      end
  end.

Definition _no_changes (m : BlueGreenDeploymentModel) : result bool :=
  let desired := desired_instance (target_or_default m) in
  match db_instance m with
  | None => Err AssertionError
  | Some inst =>
      current <- current_instance inst ;;
      Ok (forallb (fun kv =>
                     match snd kv with
                     | None => true
                     | Some value =>
                         match dict_get (fst kv) current with
                         | Some cur => PyValue_eqb value cur
                         | None => false
                         end
                     end) desired)
  end.

Definition _route_init (m : BlueGreenDeploymentModel) : result (option BaseAction) :=
  let t := target_or_default m in
  let parameter_group_name := target_parameter_group_name t in
  let create :=
    match db_instance m with
    | None => Err AssertionError
    | Some inst =>
        Ok (Some (CreateAction
          {| CreateBlueGreenDeploymentParams.name := db_instance_identifier m;
             CreateBlueGreenDeploymentParams.source_arn := DBInstanceArn inst;
             CreateBlueGreenDeploymentParams.allocated_storage :=
               BlueGreenDeploymentTarget.allocated_storage t;
             CreateBlueGreenDeploymentParams.engine_version :=
               BlueGreenDeploymentTarget.engine_version t;
             CreateBlueGreenDeploymentParams.instance_class :=
               BlueGreenDeploymentTarget.instance_class t;
             CreateBlueGreenDeploymentParams.iops := BlueGreenDeploymentTarget.iops t;
             CreateBlueGreenDeploymentParams.parameter_group_name := parameter_group_name;
             CreateBlueGreenDeploymentParams.storage_throughput :=
               BlueGreenDeploymentTarget.storage_throughput t;
             CreateBlueGreenDeploymentParams.storage_type :=
               BlueGreenDeploymentTarget.storage_type t;
             CreateBlueGreenDeploymentParams.tags := tags m |}
          PROVISIONING))
    end in
  (* [delete and (not switchover or self._no_changes())], left to right *)
  if BlueGreenDeployment.delete (config m) then
    if negb (BlueGreenDeployment.switchover (config m)) then Ok (Some (NoOpAction NO_OP))
    else
      no_changes <- _no_changes m ;;
      if no_changes then Ok (Some (NoOpAction NO_OP)) else create
  else create.

Definition _route_provisioning (_ : unit) : result (option BaseAction) :=
  Ok (Some (SimpleAction AT_WAIT_FOR_AVAILABLE AVAILABLE)).

Definition _route_available (m : BlueGreenDeploymentModel) : result (option BaseAction) :=
  if BlueGreenDeployment.switchover (config m) then
    Ok (Some (SimpleAction AT_SWITCHOVER SWITCHOVER_IN_PROGRESS))
  else if BlueGreenDeployment.delete (config m) then
    Ok (Some (SimpleAction AT_DELETE_WITHOUT_SWITCHOVER DELETING))
  else Ok None.

Definition _route_switchover_in_progress (_ : unit) : result (option BaseAction) :=
  Ok (Some (SimpleAction AT_WAIT_FOR_SWITCHOVER_COMPLETED SWITCHOVER_COMPLETED)).

Definition _route_switchover_completed (m : BlueGreenDeploymentModel) : result (option BaseAction) :=
  if BlueGreenDeployment.delete (config m) then
    Ok (Some (SimpleAction AT_DELETE_SOURCE_DB_INSTANCE DELETING_SOURCE_DB_INSTANCES))
  else Ok None.

Definition _route_deleting_source_db_instances (_ : unit) : result (option BaseAction) :=
  Ok (Some (SimpleAction AT_WAIT_FOR_SOURCE_DB_INSTANCES_DELETED SOURCE_DB_INSTANCES_DELETED)).

Definition _route_source_db_instances_deleted (_ : unit) : result (option BaseAction) :=
  Ok (Some (SimpleAction AT_DELETE DELETING)).

Definition _route_deleting (_ : unit) : result (option BaseAction) :=
  Ok (Some (SimpleAction AT_WAIT_FOR_DELETED NO_OP)).

(** A transition table: for each state its routing function and the
    states it may lead to; a state missing from the dict is [None]. *)
Definition StateGraph : Type :=
  State -> option ((unit -> result (option BaseAction)) * list State).

Definition _state_graph (m : BlueGreenDeploymentModel) : StateGraph :=
  fun s =>
    match s with
    | INIT => Some (fun _ => _route_init m, [NO_OP; PROVISIONING])
    | PROVISIONING => Some (_route_provisioning, [AVAILABLE])
    | AVAILABLE => Some (fun _ => _route_available m, [SWITCHOVER_IN_PROGRESS; DELETING])
    | SWITCHOVER_IN_PROGRESS => Some (_route_switchover_in_progress, [SWITCHOVER_COMPLETED])
    | SWITCHOVER_COMPLETED =>
        Some (fun _ => _route_switchover_completed m, [DELETING_SOURCE_DB_INSTANCES])
    | DELETING_SOURCE_DB_INSTANCES =>
        Some (_route_deleting_source_db_instances, [SOURCE_DB_INSTANCES_DELETED])
    | SOURCE_DB_INSTANCES_DELETED => Some (_route_source_db_instances_deleted, [DELETING])
    | DELETING => Some (_route_deleting, [NO_OP])
    | NOT_ENABLED | NO_OP => None
    end.

(** The [while state != State.NO_OP] loop of [plan_actions]; [fuel] bounds
    the number of iterations. *)
Fixpoint plan_loop (graph : StateGraph) (fuel : nat) (state : State)
    (actions : list BaseAction) : result (list BaseAction) :=
  if State_eqb state NO_OP then Ok actions
  else match fuel with
  | O => Err Diverged
  | S fuel' =>
      match graph state with
      | None => Err (KeyError_State state)
      | Some (routing_func, allowed_next_states) =>
          action <- routing_func tt ;;
          match action with
          | None => Ok actions
          | Some a =>
              if existsb (State_eqb (next_state a)) allowed_next_states then
                plan_loop graph fuel' (next_state a)
                  (if ActionType_eqb (type a) AT_NO_OP then actions else actions ++ [a])
              else Err (ValueError_InvalidNextState (next_state a) state)
          end
      end
  end.

(** The table is acyclic with 9 states, so 9 iterations always suffice. *)
Definition plan_fuel : nat := 9.

Definition plan_actions (m : BlueGreenDeploymentModel) : result (list BaseAction) :=
  plan_loop (_state_graph m) plan_fuel (state m) [].

(** ** The create request: [params.model_dump(by_alias=True, exclude_none=True)] *)

Inductive JsonValue :=
| JStr (s : string)
| JInt (z : Z)
| JList (l : list (list (string * string))).

(** [serialize_tags]: [[{"Key": k, "Value": v} for k, v in tags.items()]] *)
Definition serialize_tags (tags : list (string * string)) : JsonValue :=
  JList (map (fun kv => [("Key", fst kv); ("Value", snd kv)]) tags).

(** a field serialised under [alias] unless its value is [None] *)
Definition dump_field {A} (alias : string) (f : A -> JsonValue) (o : option A)
    : list (string * JsonValue) :=
  match o with
  | Some v => [(alias, f v)]
  | None => []
  end.

Definition model_dump_by_alias_exclude_none (p : CreateBlueGreenDeploymentParams.t)
    : list (string * JsonValue) :=
  [("BlueGreenDeploymentName", JStr (CreateBlueGreenDeploymentParams.name p));
   ("Source", JStr (CreateBlueGreenDeploymentParams.source_arn p))]
  ++ dump_field "TargetAllocatedStorage" JInt (CreateBlueGreenDeploymentParams.allocated_storage p)
  ++ dump_field "TargetEngineVersion" JStr (CreateBlueGreenDeploymentParams.engine_version p)
  ++ dump_field "TargetDBInstanceClass" JStr (CreateBlueGreenDeploymentParams.instance_class p)
  ++ dump_field "TargetIops" JInt (CreateBlueGreenDeploymentParams.iops p)
  ++ dump_field "TargetDBParameterGroupName" JStr
       (CreateBlueGreenDeploymentParams.parameter_group_name p)
  ++ dump_field "TargetStorageThroughput" JInt
       (CreateBlueGreenDeploymentParams.storage_throughput p)
  ++ dump_field "TargetStorageType" JStr (CreateBlueGreenDeploymentParams.storage_type p)
  ++ dump_field "Tags" serialize_tags (CreateBlueGreenDeploymentParams.tags p).

(** ** hooks/utils/wait.py : wait_for

    The loop state [St] carries a clock read by [time_] (whole seconds, so
    [int(time.time() - start_time)] is the difference of two readings) and
    advanced by [sleep_].  The condition may read and update the state and
    may raise.  [fuel] bounds the number of iterations of the [while] loop. *)

Section Wait.
Context {St : Type}.
Variable time_ : St -> Z.
Variable sleep_ : Z -> St -> St.

Fixpoint wait_loop (condition : St -> result (bool * St)) (timeout : option Z)
    (interval : Z) (start_time : Z) (fuel : nat) (s : St) : result (unit * St) :=
  match fuel with
  | O => Err Diverged
  | S fuel' =>
      r <- condition s ;;
      let '(met, s1) := r in
      if met then Ok (tt, s1)
      else
        let elapsed := time_ s1 - start_time in
        (* [time.sleep(interval)] raises ValueError on a negative length *)
        let next :=
          if interval <? 0 then Err ValueError_NegativeSleepLength
          else wait_loop condition timeout interval start_time fuel' (sleep_ interval s1) in
        match timeout with
        | Some t => if t <=? elapsed then Err (TimeoutError t) else next
        | None => next
        end
  end.

Definition wait_for (condition : St -> result (bool * St)) (timeout : option Z)
    (interval : Z) (fuel : nat) (s : St) : result (unit * St) :=
  wait_loop condition timeout interval (time_ s) fuel s.
End Wait.

(** A clock for [wait_for]: the state is the current time in seconds and
    [time.sleep(i)] advances it by [i] ([wait_loop] raises before a
    negative sleep). [clock_condition p] is a predicate on the time of the
    check that does not itself take time; [timed_condition p d] is one
    whose check takes [d] seconds, as a call to the cloud does. *)
Definition clock_time (t : Z) : Z := t.
Definition clock_sleep (i t : Z) : Z := t + i.
Definition clock_condition (p : Z -> bool) (t : Z) : result (bool * Z) := Ok (p t, t).
Definition timed_condition (p : Z -> bool) (d : Z) (t : Z) : result (bool * Z) := Ok (p t, t + d).

(** [timeout is not None and elapsed >= timeout] *)
Definition timed_out (timeout : option Z) (elapsed : Z) : bool :=
  match timeout with Some t => t <=? elapsed | None => false end.

(** Default [interval] of [wait_for]. *)
Definition default_interval : Z := 60.

(** ** hooks/utils/aws_api.py : the calls the manager makes

    The cloud is an abstract world [W]: reads are functions of it, mutating
    calls and [time.sleep] transform it.  Errors raised by the RDS client
    are not modelled.  Every call is recorded, in order, in a log. *)

Inductive Call :=
| Call_get_db_instance (identifier : string)
| Call_get_blue_green_deployment_valid_upgrade_targets (engine version : string)
| Call_get_db_parameter_group (name : string)
| Call_get_blue_green_deployment (name : string)
| Call_create_blue_green_deployment (kwargs : list (string * JsonValue))
| Call_switchover_blue_green_deployment (identifier : string)
| Call_delete_db_instance (identifier : string)
| Call_delete_blue_green_deployment (identifier : string) (delete_target : option bool).

Definition is_mutating (c : Call) : bool :=
  match c with
  | Call_create_blue_green_deployment _
  | Call_switchover_blue_green_deployment _
  | Call_delete_db_instance _
  | Call_delete_blue_green_deployment _ _ => true
  | _ => false
  end.

Record CloudGateway (W : Type) := {
  gw_get_db_instance : string -> W -> option DBInstance;
  gw_get_blue_green_deployment_valid_upgrade_targets :
    string -> string -> W -> list (string * UpgradeTarget);
  gw_get_db_parameter_group : string -> W -> option DBParameterGroup;
  gw_get_blue_green_deployment : string -> W -> option BlueGreenDeploymentTypeDef;
  gw_create_blue_green_deployment : list (string * JsonValue) -> W -> W;
  gw_switchover_blue_green_deployment : string -> W -> W;
  gw_delete_db_instance : string -> W -> W;
  gw_delete_blue_green_deployment : string -> option bool -> W -> W;
  gw_time : W -> Z;
  gw_sleep : Z -> W -> W
}.
Arguments gw_get_db_instance {W} c _ _.
Arguments gw_get_blue_green_deployment_valid_upgrade_targets {W} c _ _ _.
Arguments gw_get_db_parameter_group {W} c _ _.
Arguments gw_get_blue_green_deployment {W} c _ _.
Arguments gw_create_blue_green_deployment {W} c _ _.
Arguments gw_switchover_blue_green_deployment {W} c _ _.
Arguments gw_delete_db_instance {W} c _ _.
Arguments gw_delete_blue_green_deployment {W} c _ _ _.
Arguments gw_time {W} c _.
Arguments gw_sleep {W} c _ _.

(** ** hooks/utils/blue_green_deployment_manager.py *)

(** The parts of [AppInterfaceInput] the manager reads. *)
Record AppInterfaceInput := {
  data_blue_green_deployment : option BlueGreenDeployment.t;
  data_tags : option (list (string * string));
  provision_identifier : string
}.

(** The state of a manager run: the cloud, the calls made so far and the
    manager's [self.model]. *)
Record MState (W : Type) := {
  world : W;
  calls : list Call;
  model : option BlueGreenDeploymentModel
}.
Arguments world {W} _.
Arguments calls {W} _.
Arguments model {W} _.

Definition set_bgd (m : BlueGreenDeploymentModel) (b : option BlueGreenDeploymentTypeDef)
    : BlueGreenDeploymentModel :=
  {| state := state m; db_instance_identifier := db_instance_identifier m;
     config := config m; db_instance := db_instance m;
     target_db_parameter_group := target_db_parameter_group m;
     blue_green_deployment := b;
     source_db_instances := source_db_instances m;
     target_db_instances := target_db_instances m;
     tags := tags m; valid_upgrade_targets := valid_upgrade_targets m |}.

Definition set_source_db_instances (m : BlueGreenDeploymentModel) (l : list DBInstance)
    : BlueGreenDeploymentModel :=
  {| state := state m; db_instance_identifier := db_instance_identifier m;
     config := config m; db_instance := db_instance m;
     target_db_parameter_group := target_db_parameter_group m;
     blue_green_deployment := blue_green_deployment m;
     source_db_instances := l;
     target_db_instances := target_db_instances m;
     tags := tags m; valid_upgrade_targets := valid_upgrade_targets m |}.

Definition set_target_db_instances (m : BlueGreenDeploymentModel) (l : list DBInstance)
    : BlueGreenDeploymentModel :=
  {| state := state m; db_instance_identifier := db_instance_identifier m;
     config := config m; db_instance := db_instance m;
     target_db_parameter_group := target_db_parameter_group m;
     blue_green_deployment := blue_green_deployment m;
     source_db_instances := source_db_instances m;
     target_db_instances := l;
     tags := tags m; valid_upgrade_targets := valid_upgrade_targets m |}.

Inductive MemberKey := SourceMemberKey | TargetMemberKey.

Definition member_of (key : MemberKey) (d : SwitchoverDetail) : option string :=
  match key with
  | SourceMemberKey => SourceMember d
  | TargetMemberKey => TargetMember d
  end.

Section Manager.
Context {W : Type}.
Variable gw : CloudGateway W.
Variable app_interface_input : AppInterfaceInput.
Variable dry_run : bool.
(** bound on the iterations of each poll *)
Variable fuel : nat.

Definition M (A : Type) : Type := MState W -> result (A * MState W).

Definition ret {A} (a : A) : M A := fun s => Ok (a, s).

Definition mbind {A B} (x : M A) (f : A -> M B) : M B :=
  fun s => r <- x s ;; let '(a, s') := r in f a s'.

Definition raise {A} (e : Error) : M A := fun _ => Err e.

Definition lift {A} (r : result A) : M A :=
  fun s => match r with Ok a => Ok (a, s) | Err e => Err e end.

Local Notation "'let!' x ':=' m 'in' k" := (mbind m (fun x => k))
  (at level 200, x name, m at level 100, k at level 200).

Definition log (c : Call) (s : MState W) : MState W :=
  {| world := world s; calls := calls s ++ [c]; model := model s |}.

Definition read {A} (c : Call) (f : W -> A) : M A :=
  fun s => Ok (f (world s), log c s).

Definition mutate (c : Call) (f : W -> W) : M unit :=
  fun s => Ok (tt, {| world := f (world s); calls := calls s ++ [c]; model := model s |}).

Definition get_model : M BlueGreenDeploymentModel :=
  fun s => match model s with
           | Some m => Ok (m, s)
           | None => Err AssertionError
           end.

Definition put_model (m : BlueGreenDeploymentModel) : M unit :=
  fun s => Ok (tt, {| world := world s; calls := calls s; model := Some m |}).

Definition get_db_instance (identifier : string) : M (option DBInstance) :=
  read (Call_get_db_instance identifier) (gw_get_db_instance gw identifier).

Definition get_blue_green_deployment (name : string) : M (option BlueGreenDeploymentTypeDef) :=
  read (Call_get_blue_green_deployment name) (gw_get_blue_green_deployment gw name).

Fixpoint fetch_members (key : MemberKey) (details : list SwitchoverDetail)
    : M (list DBInstance) :=
  match details with
  | [] => ret []
  | d :: rest =>
      match truthy_str (member_of key d) with
      | Some identifier =>
          let! inst := get_db_instance identifier in
          let! insts := fetch_members key rest in
          ret (match inst with Some i => i :: insts | None => insts end)
      | None => fetch_members key rest
      end
  end.

Definition _fetch_blue_green_deployment_member_instances
    (b : option BlueGreenDeploymentTypeDef) (key : MemberKey) : M (list DBInstance) :=
  match b with
  | None => ret []
  | Some bgd => fetch_members key (SwitchoverDetails bgd)
  end.

Definition _fetch_source_db_instances (b : option BlueGreenDeploymentTypeDef) :=
  _fetch_blue_green_deployment_member_instances b SourceMemberKey.

Definition _fetch_target_db_instances (b : option BlueGreenDeploymentTypeDef) :=
  _fetch_blue_green_deployment_member_instances b TargetMemberKey.

Definition _build_model (cfg : BlueGreenDeployment.t) : M BlueGreenDeploymentModel :=
  let identifier := provision_identifier app_interface_input in
  let! db_inst := get_db_instance identifier in
  let! valid_upgrade_targets :=
    match db_inst with
    | Some i =>
        read (Call_get_blue_green_deployment_valid_upgrade_targets (Engine i) (EngineVersion i))
             (gw_get_blue_green_deployment_valid_upgrade_targets gw (Engine i) (EngineVersion i))
    | None => ret []
    end in
  let target_parameter_group_name :=
    match BlueGreenDeployment.target cfg with
    | Some t => target_parameter_group_name t
    | None => None
    end in
  let! target_db_parameter_group :=
    match truthy_str target_parameter_group_name with
    | Some n => read (Call_get_db_parameter_group n) (gw_get_db_parameter_group gw n)
    | None => ret None
    end in
  let! bgd := get_blue_green_deployment identifier in
  let! source_db_instances := _fetch_source_db_instances bgd in
  let! target_db_instances := _fetch_target_db_instances bgd in
  lift (validate_model
    {| state := INIT;
       db_instance_identifier := identifier;
       config := cfg;
       db_instance := db_inst;
       target_db_parameter_group := target_db_parameter_group;
       blue_green_deployment := bgd;
       source_db_instances := source_db_instances;
       target_db_instances := target_db_instances;
       tags := data_tags app_interface_input;
       valid_upgrade_targets := valid_upgrade_targets |}).

(** [wait_for(condition, logger=self.logger)]: no timeout, 60s interval *)
Definition wait_for_m (condition : M bool) : M unit :=
  wait_for (fun s => gw_time gw (world s))
           (fun i s => {| world := gw_sleep gw i (world s); calls := calls s;
                          model := model s |})
           condition None default_interval fuel.

Definition _wait_for_available_condition : M bool :=
  let! m := get_model in
  let! b := get_blue_green_deployment (db_instance_identifier m) in
  let m := set_bgd m b in
  let! targets := _fetch_target_db_instances b in
  let m := set_target_db_instances m targets in
  let! _ := put_model m in
  ret (is_blue_green_deployment_available m).

Definition _wait_for_switchover_completed_condition : M bool :=
  let! m := get_model in
  let! b := get_blue_green_deployment (db_instance_identifier m) in
  let! _ := put_model (set_bgd m b) in
  ret (match b with Some bgd => String.eqb (Status bgd) "SWITCHOVER_COMPLETED" | None => false end).

Definition _wait_for_source_db_instances_deleted_condition : M bool :=
  let! m := get_model in
  let! srcs := _fetch_source_db_instances (blue_green_deployment m) in
  let! _ := put_model (set_source_db_instances m srcs) in
  ret (Nat.eqb (length srcs) 0).

Definition _wait_for_delete_condition_condition : M bool :=
  let! m := get_model in
  let! b := get_blue_green_deployment (db_instance_identifier m) in
  let! _ := put_model (set_bgd m b) in
  ret (match b with Some _ => false | None => true end).

Definition deployment_identifier : M string :=
  let! m := get_model in
  match blue_green_deployment m with
  | Some b => ret (BlueGreenDeploymentIdentifier b)
  | None => raise AssertionError
  end.

Fixpoint delete_all (insts : list DBInstance) : M unit :=
  match insts with
  | [] => ret tt
  | i :: rest =>
      let! _ := mutate (Call_delete_db_instance (DBInstanceIdentifier i))
                       (gw_delete_db_instance gw (DBInstanceIdentifier i)) in
      delete_all rest
  end.

(** [self._action_handlers[action.type](action)] *)
Definition handle (action : BaseAction) : M unit :=
  match type action with
  | AT_CREATE =>
      match payload action with
      | Some p =>
          let kwargs := model_dump_by_alias_exclude_none p in
          mutate (Call_create_blue_green_deployment kwargs)
                 (gw_create_blue_green_deployment gw kwargs)
      | None => raise AssertionError
      end
  | AT_WAIT_FOR_AVAILABLE => wait_for_m _wait_for_available_condition
  | AT_SWITCHOVER =>
      let! identifier := deployment_identifier in
      mutate (Call_switchover_blue_green_deployment identifier)
             (gw_switchover_blue_green_deployment gw identifier)
  | AT_WAIT_FOR_SWITCHOVER_COMPLETED => wait_for_m _wait_for_switchover_completed_condition
  | AT_DELETE_SOURCE_DB_INSTANCE =>
      let! m := get_model in
      let! srcs := _fetch_source_db_instances (blue_green_deployment m) in
      let! _ := put_model (set_source_db_instances m srcs) in
      delete_all srcs
  | AT_WAIT_FOR_SOURCE_DB_INSTANCES_DELETED =>
      wait_for_m _wait_for_source_db_instances_deleted_condition
  | AT_DELETE =>
      let! identifier := deployment_identifier in
      mutate (Call_delete_blue_green_deployment identifier None)
             (gw_delete_blue_green_deployment gw identifier None)
  | AT_DELETE_WITHOUT_SWITCHOVER =>
      let! identifier := deployment_identifier in
      mutate (Call_delete_blue_green_deployment identifier (Some true))
             (gw_delete_blue_green_deployment gw identifier (Some true))
  | AT_WAIT_FOR_DELETED => wait_for_m _wait_for_delete_condition_condition
  | AT_NO_OP => raise (KeyError "no_op")
  end.

(** The [for action in actions] loop of [run]. *)
Fixpoint run_actions (actions : list BaseAction) : M unit :=
  match actions with
  | [] => ret tt
  | action :: rest =>
      let! _ :=
        if dry_run then ret tt
        else
          let! _ := handle action in
          let! m := get_model in
          put_model (set_state m (next_state action)) in
      run_actions rest
  end.

Definition run : M State :=
  match data_blue_green_deployment app_interface_input with
  | None => ret NOT_ENABLED
  | Some cfg =>
      if negb (BlueGreenDeployment.enabled cfg) then ret NOT_ENABLED
      else
        let! m := _build_model cfg in
        let! _ := put_model m in
        let! actions := lift (plan_actions m) in
        let! _ := run_actions actions in
        let! m' := get_model in
        ret (state m')
  end.
End Manager.

(** [[f(x) for x in l if f(x)]] over an optional result *)
Fixpoint filter_map {A B : Type} (f : A -> option B) (l : list A) : list B :=
  match l with
  | [] => []
  | x :: l' => match f x with Some y => y :: filter_map f l' | None => filter_map f l' end
  end.

(** ** Python dicts: insertion-ordered, one entry per key *)

(** [d[k] = v]: an existing key keeps its place and takes the new value, a
    new key goes last. *)
Fixpoint dict_set {T : Type} (k : string) (v : T) (d : list (string * T))
    : list (string * T) :=
  match d with
  | [] => [(k, v)]
  | (k', v') :: d' => if String.eqb k' k then (k', v) :: d' else (k', v') :: dict_set k v d'
  end.

(** [{k: v for k, v in items}] *)
Definition dict_from_items {T : Type} (items : list (string * T)) : list (string * T) :=
  fold_left (fun d kv => dict_set (fst kv) (snd kv) d) items [].

(** [d1 | d2] *)
Definition dict_union {T : Type} (d1 d2 : list (string * T)) : list (string * T) :=
  fold_left (fun d kv => dict_set (fst kv) (snd kv) d) d2 d1.

(** [d.pop(k, None)], the result discarded *)
Definition dict_pop {T : Type} (k : string) (d : list (string * T)) : list (string * T) :=
  filter (fun kv => negb (String.eqb (fst kv) k)) d.

(** ** hooks/utils/aws_api.py : AWSApi *)

Module AWSApi.

(** [FilterTypeDef] *)
Record Filter := {
  Name : string;
  Values : list string
}.

(** the arguments of [describe_db_engine_versions] *)
Record DescribeDBEngineVersionsRequest := {
  req_Engine : string;
  req_EngineVersion : option string;
  req_IncludeAll : option bool;
  req_Filters : option (list Filter)
}.

(** an entry of [DBEngineVersions]; [ValidUpgradeTarget] may be absent *)
Record DBEngineVersion := {
  dev_EngineVersion : string;
  ValidUpgradeTarget : option (list UpgradeTarget)
}.

(** [get_rds_valid_upgrade_targets]; [describe_db_engine_versions] gives the
    response's [DBEngineVersions] key, [None] when it is absent. *)
Definition get_rds_valid_upgrade_targets
    (describe_db_engine_versions : DescribeDBEngineVersionsRequest -> option (list DBEngineVersion))
    (engine version : string) : list (string * UpgradeTarget) :=
  let data := describe_db_engine_versions
    {| req_Engine := engine; req_EngineVersion := Some version;
       req_IncludeAll := Some true; req_Filters := None |} in
  match data with
  | None | Some [] => []
  | Some (first :: _) =>
      dict_from_items
        (map (fun item => (ut_EngineVersion item, item))
             (match ValidUpgradeTarget first with Some l => l | None => [] end))
  end.

(** [candidate_upgrade_targets] of
    [get_blue_green_deployment_valid_upgrade_targets]: the current version
    as a non-major target, merged with [get_rds_valid_upgrade_targets]
    ([Engine], the third key of the current entry, is read by nobody and
    left out). *)
Definition candidate_upgrade_targets
    (describe_db_engine_versions : DescribeDBEngineVersionsRequest -> option (list DBEngineVersion))
    (engine version : string) : list (string * UpgradeTarget) :=
  let current_version_as_target :=
    {| ut_EngineVersion := version; IsMajorVersionUpgrade := false |} in
  dict_union [(version, current_version_as_target)]
             (get_rds_valid_upgrade_targets describe_db_engine_versions engine version).

(** the second [describe_db_engine_versions] call, filtered on the
    candidates' versions *)
Definition engine_version_filter_request (engine : string)
    (candidate_upgrade_targets : list (string * UpgradeTarget)) : DescribeDBEngineVersionsRequest :=
  {| req_Engine := engine; req_EngineVersion := None; req_IncludeAll := None;
     req_Filters := Some [{| Name := "engine-version"; Values := map fst candidate_upgrade_targets |}] |}.

(** [get_blue_green_deployment_valid_upgrade_targets].
    [data["DBEngineVersions"]] raises KeyError when the key is absent. *)
Definition get_blue_green_deployment_valid_upgrade_targets
    (describe_db_engine_versions : DescribeDBEngineVersionsRequest -> option (list DBEngineVersion))
    (engine version : string) : result (list (string * UpgradeTarget)) :=
  let candidates := candidate_upgrade_targets describe_db_engine_versions engine version in
  let data := describe_db_engine_versions (engine_version_filter_request engine candidates) in
  match data with
  | None => Err (KeyError "DBEngineVersions")
  | Some [] => Ok []
  | Some items =>
      let available_versions := map dev_EngineVersion items in
      Ok (filter (fun kv => existsb (String.eqb (fst kv)) available_versions) candidates)
  end.

(** [ParameterOutputTypeDef], the keys read here *)
Record ParameterOutput := {
  ParameterName : string;
  ParameterValue : option string;
  ApplyMethod : option string
}.

(** [kwargs["Filters"]], set only when [parameter_names] is truthy *)
Definition parameter_name_filters (parameter_names : option (list string))
    : option (list Filter) :=
  match parameter_names with
  | Some (_ :: _ as names) => Some [{| Name := "parameter-name"; Values := names |}]
  | _ => None
  end.

Record DescribeDBParametersRequest := {
  req_DBParameterGroupName : string;
  req_parameter_filters : option (list Filter)
}.

Record DescribeEngineDefaultParametersRequest := {
  req_DBParameterGroupFamily : string;
  req_default_filters : option (list Filter)
}.

(** [{item["ParameterName"]: item for page in pages for item in <items of page>}] *)
Definition parameters_by_name (items : list (list ParameterOutput)) : list (string * ParameterOutput) :=
  dict_from_items (map (fun item => (ParameterName item, item)) (concat items)).

(** the items of the pages of [describe_db_parameters]: a page may lack
    [Parameters] (the outer [None]), on which [data["Parameters"]] raises
    KeyError, and [or []] reads a [Parameters] of [None] as empty *)
Fixpoint db_parameters_pages (pages : list (option (option (list ParameterOutput))))
    : result (list (list ParameterOutput)) :=
  match pages with
  | [] => Ok []
  | None :: _ => Err (KeyError "Parameters")
  | Some page :: rest =>
      items <- db_parameters_pages rest ;;
      Ok (match page with Some l => l | None => [] end :: items)
  end.

Definition get_db_parameters
    (paginate_describe_db_parameters :
       DescribeDBParametersRequest -> list (option (option (list ParameterOutput))))
    (parameter_group_name : string) (parameter_names : option (list string))
    : result (list (string * ParameterOutput)) :=
  let kwargs := {| req_DBParameterGroupName := parameter_group_name;
                   req_parameter_filters := parameter_name_filters parameter_names |} in
  items <- db_parameters_pages (paginate_describe_db_parameters kwargs) ;;
  Ok (parameters_by_name items).

(** [get_engine_default_parameters]: a page may lack [EngineDefaults] (the
    outer [None]) and [EngineDefaults] may lack [Parameters]. *)
Definition get_engine_default_parameters
    (paginate_describe_engine_default_parameters :
       DescribeEngineDefaultParametersRequest -> list (option (option (list ParameterOutput))))
    (parameter_group_family : string) (parameter_names : option (list string))
    : list (string * ParameterOutput) :=
  let kwargs := {| req_DBParameterGroupFamily := parameter_group_family;
                   req_default_filters := parameter_name_filters parameter_names |} in
  parameters_by_name
    (map (fun page => match page with Some (Some l) => l | _ => [] end)
         (paginate_describe_engine_default_parameters kwargs)).

(** the outcome of [describe_db_instances]: the [DBInstances] list, or the
    [DBInstanceNotFoundFault] the code catches *)
Inductive DescribeDBInstancesOutcome (V : Type) :=
| DBInstances (instances : list (list (string * V)))
| DBInstanceNotFoundFault.
Arguments DBInstances {V} _.
Arguments DBInstanceNotFoundFault {V}.

(** [get_db_instance], over the instance as the raw dict boto3 returns *)
Definition get_db_instance {V : Type}
    (describe_db_instances : string -> DescribeDBInstancesOutcome V)
    (identifier : string) : option (list (string * V)) :=
  match describe_db_instances identifier with
  | DBInstanceNotFoundFault => None
  | DBInstances [] => None
  | DBInstances (db_instance :: _) => Some (dict_pop "ReplicaMode" db_instance)
  end.

(** request values *)
Inductive KwArg := KStr (s : string) | KInt (z : Z) | KBool (b : bool).

(** the kwargs of [switchover_blue_green_deployment] *)
Definition switchover_blue_green_deployment_kwargs (identifier : string) (timeout : option Z)
    : list (string * KwArg) :=
  [("BlueGreenDeploymentIdentifier", KStr identifier)] ++
  match timeout with Some t => [("SwitchoverTimeout", KInt t)] | None => [] end.

(** the kwargs of [delete_blue_green_deployment] *)
Definition delete_blue_green_deployment_kwargs (identifier : string) (delete_target : option bool)
    : list (string * KwArg) :=
  [("BlueGreenDeploymentIdentifier", KStr identifier)] ++
  match delete_target with Some d => [("DeleteTarget", KBool d)] | None => [] end.

End AWSApi.

(** ** hooks/utils/runtime.py *)

(** [os.getenv("DRY_RUN", "True") == "True"] *)
Definition is_dry_run (getenv : string -> option string) : bool :=
  String.eqb (match getenv "DRY_RUN" with Some v => v | None => "True" end) "True".

(** ** hooks/pre_run.py *)

Inductive ExitStatus := EXIT_OK | EXIT_ERROR | EXIT_SKIP.

(** How [main] ends: [sys.exit] (with whether [mark_rerun] ran before it),
    an uncaught AttributeError, or falling off the end of the [match]. *)
Inductive MainOutcome :=
| SysExit (status : ExitStatus) (rerun_marked : bool)
| AttributeError (name : string)
| FallsThrough.

(** The members of the [State] enum of hooks/utils/models.py, by name. *)
Definition State_members : list (string * State) :=
  [("INIT", INIT); ("NOT_ENABLED", NOT_ENABLED); ("PROVISIONING", PROVISIONING);
   ("AVAILABLE", AVAILABLE); ("SWITCHOVER_IN_PROGRESS", SWITCHOVER_IN_PROGRESS);
   ("SWITCHOVER_COMPLETED", SWITCHOVER_COMPLETED);
   ("DELETING_SOURCE_DB_INSTANCES", DELETING_SOURCE_DB_INSTANCES);
   ("SOURCE_DB_INSTANCES_DELETED", SOURCE_DB_INSTANCES_DELETED);
   ("DELETING", DELETING); ("NO_OP", NO_OP)].

(** An or-pattern of value patterns [State.A | State.B | ...]: the
    alternatives are tried left to right, each attribute looked up when it
    is tried; a missing member raises AttributeError ([inl]). *)
Fixpoint or_pattern_matches (subject : State) (alternatives : list string) : string + bool :=
  match alternatives with
  | [] => inr false
  | name :: rest =>
      match dict_get name State_members with
      | None => inl name
      | Some v => if State_eqb subject v then inr true else or_pattern_matches subject rest
      end
  end.

(** [match subject: case ...: body ...], the cases tried in order *)
Fixpoint match_state (subject : State) (cases : list (list string * MainOutcome)) : MainOutcome :=
  match cases with
  | [] => FallsThrough
  | (alternatives, body) :: rest =>
      match or_pattern_matches subject alternatives with
      | inl name => AttributeError name
      | inr true => body
      | inr false => match_state subject rest
      end
  end.

(** [main], from the environment on: [manager.run()] runs inside the [try],
    whose [except Exception] exits with EXIT_ERROR; the [match] is outside. *)
Definition pre_run_main {W : Type} (gw : CloudGateway W) (inp : AppInterfaceInput)
    (getenv : string -> option string) (fuel : nat) (s : MState W) : MainOutcome :=
  let dry_run := is_dry_run getenv in
  match run gw inp dry_run fuel s with
  | Err _ => SysExit EXIT_ERROR false
  | Ok (state, _) =>
      match_state state
        [(["NOT_ENABLED"; "NO_OP"], SysExit EXIT_OK false);
         (["INIT"; "REPLICA_SOURCE_ENABLED"; "PROVISIONING"; "AVAILABLE";
           "SWITCHOVER_IN_PROGRESS"; "SWITCHOVER_COMPLETED";
           "DELETING_SOURCE_DB_INSTANCES"; "SOURCE_DB_INSTANCES_DELETED"; "DELETING"],
          SysExit EXIT_SKIP false);
         (["PENDING_PREPARE"], SysExit EXIT_OK (negb dry_run))]
  end.

(** The position of a state along the deployment pipeline. *)
Definition state_rank (s : State) : nat :=
  match s with
  | INIT => 0 | PROVISIONING => 1 | AVAILABLE => 2 | SWITCHOVER_IN_PROGRESS => 3
  | SWITCHOVER_COMPLETED => 4 | DELETING_SOURCE_DB_INSTANCES => 5
  | SOURCE_DB_INSTANCES_DELETED => 6 | DELETING => 7 | NO_OP => 8 | NOT_ENABLED => 9
  end.

(** The deployment statuses [_init_state] handles. *)
Definition known_statuses : list string :=
  ["PROVISIONING"; "AVAILABLE"; "SWITCHOVER_IN_PROGRESS"; "SWITCHOVER_COMPLETED"; "DELETING"].

(** A manager computation that changes the cloud only by sleeping
    [interval] seconds at a time and logs only non-mutating calls. *)
Definition sleeps_and_reads {W A : Type} (gw : CloudGateway W) (interval : Z) (x : M A) : Prop :=
  forall (s s' : MState W) (a : A), x s = Ok (a, s') ->
    (exists n, world s' = Nat.iter n (gw_sleep gw interval) (world s)) /\
    exists new, calls s' = (calls s ++ new)%list /\
                forallb (fun c => negb (is_mutating c)) new = true.

(** ** Example inputs, shaped like the fixtures of the test suite *)

Definition ex_pg_in_sync : DBParameterGroupStatus :=
  {| DBParameterGroupName := "test-rds-pg15"; ParameterApplyStatus := "in-sync" |}.

Definition ex_db_instance (engine version : string) (pgs : list DBParameterGroupStatus)
    : DBInstance :=
  {| DBInstanceIdentifier := "test-rds"; DBInstanceArn := "some-arn";
     DBInstanceStatus := "available"; DeletionProtection := false;
     BackupRetentionPeriod := 7; Engine := engine; EngineVersion := version;
     DBInstanceClass := "db.t4g.micro"; StorageType := "gp3";
     StorageThroughput := Some 125; AllocatedStorage := 20; Iops := Some 3000;
     DBParameterGroups := pgs |}.


Definition ex_target_engine_version (v : string) : BlueGreenDeploymentTarget.t :=
  {| BlueGreenDeploymentTarget.allocated_storage := None;
     BlueGreenDeploymentTarget.engine_version := Some v;
     BlueGreenDeploymentTarget.instance_class := None;
     BlueGreenDeploymentTarget.iops := None;
     BlueGreenDeploymentTarget.parameter_group := None;
     BlueGreenDeploymentTarget.storage_throughput := None;
     BlueGreenDeploymentTarget.storage_type := None |}.

Definition ex_config (sw del : bool) (t : option BlueGreenDeploymentTarget.t)
    : BlueGreenDeployment.t :=
  {| BlueGreenDeployment.enabled := true; BlueGreenDeployment.switchover := sw;
     BlueGreenDeployment.delete := del; BlueGreenDeployment.target := t |}.

(** [BlueGreenDeploymentModel(state=State.INIT, ...)] before validation *)
Definition ex_raw_model (cfg : BlueGreenDeployment.t) (inst : DBInstance)
    (bgd : option BlueGreenDeploymentTypeDef) (srcs tgts : list DBInstance)
    (vut : list (string * UpgradeTarget)) : BlueGreenDeploymentModel :=
  {| state := INIT; db_instance_identifier := "test-rds"; config := cfg;
     db_instance := Some inst; target_db_parameter_group := None;
     blue_green_deployment := bgd; source_db_instances := srcs;
     target_db_instances := tgts; tags := None; valid_upgrade_targets := vut |}.

Definition ex_upgrade (v : string) (is_major : bool) : string * UpgradeTarget :=
  (v, {| ut_EngineVersion := v; IsMajorVersionUpgrade := is_major |}).

Definition ex_bgd (status : string) : BlueGreenDeploymentTypeDef :=
  {| BlueGreenDeploymentIdentifier := "bgd-id"; Status := status;
     SwitchoverDetails := [] |}.

(** A cloud holding the [test-rds] instance and no deployment yet; its
    clock stands still and its mutations are not observed. *)
Definition ex_gateway : CloudGateway unit :=
  {| gw_get_db_instance := fun id _ =>
       if String.eqb id "test-rds"
       then Some (ex_db_instance "postgres" "15.7" [ex_pg_in_sync]) else None;
     gw_get_blue_green_deployment_valid_upgrade_targets := fun _ _ _ =>
       [ex_upgrade "15.7" false; ex_upgrade "16.3" true];
     gw_get_db_parameter_group := fun _ _ => None;
     gw_get_blue_green_deployment := fun _ _ => None;
     gw_create_blue_green_deployment := fun _ w => w;
     gw_switchover_blue_green_deployment := fun _ w => w;
     gw_delete_db_instance := fun _ w => w;
     gw_delete_blue_green_deployment := fun _ _ w => w;
     gw_time := fun _ => 0;
     gw_sleep := fun _ w => w |}.

Definition ex_input (cfg : option BlueGreenDeployment.t) : AppInterfaceInput :=
  {| data_blue_green_deployment := cfg; data_tags := None;
     provision_identifier := "test-rds" |}.

Definition ex_mstate : MState unit := {| world := tt; calls := []; model := None |}.

(** An upgrade of [test-rds] from 15.7 to 16.3, before validation. *)
Definition ex_upgrade_model (sw del : bool) : BlueGreenDeploymentModel :=
  ex_raw_model (ex_config sw del (Some (ex_target_engine_version "16.3")))
    (ex_db_instance "postgres" "15.7" [ex_pg_in_sync]) None [] []
    [ex_upgrade "15.7" false; ex_upgrade "16.3" true].

Definition ex_named_instance (identifier : string) : DBInstance :=
  {| DBInstanceIdentifier := identifier; DBInstanceArn := "some-arn";
     DBInstanceStatus := "available"; DeletionProtection := false;
     BackupRetentionPeriod := 7; Engine := "postgres"; EngineVersion := "15.7";
     DBInstanceClass := "db.t4g.micro"; StorageType := "gp3";
     StorageThroughput := Some 125; AllocatedStorage := 20; Iops := Some 3000;
     DBParameterGroups := [ex_pg_in_sync] |}.

(** A cloud that goes through a whole blue/green deployment: phase 0 has
    no deployment, [create] makes it available (phase 1), [switchover]
    completes it (phase 2), deleting the old source instance gives phase 3
    and deleting the deployment phase 4. *)
Definition ex_phase_gateway : CloudGateway nat :=
  {| gw_get_db_instance := fun id w =>
       if String.eqb id "test-rds" then Some (ex_db_instance "postgres" "15.7" [ex_pg_in_sync])
       else if String.eqb id "test-rds-old" then
         (if (w <? 3)%nat then Some (ex_named_instance "test-rds-old") else None)
       else if String.eqb id "test-rds-green" then Some (ex_named_instance "test-rds-green")
       else None;
     gw_get_blue_green_deployment_valid_upgrade_targets := fun _ _ _ =>
       [ex_upgrade "15.7" false; ex_upgrade "16.3" true];
     gw_get_db_parameter_group := fun _ _ => None;
     gw_get_blue_green_deployment := fun _ w =>
       match w with
       | O => None
       | 1%nat => Some {| BlueGreenDeploymentIdentifier := "bgd-id"; Status := "AVAILABLE";
                         SwitchoverDetails := [{| SourceMember := Some "test-rds";
                                                  TargetMember := Some "test-rds-green" |}] |}
       | 2%nat | 3%nat =>
           Some {| BlueGreenDeploymentIdentifier := "bgd-id"; Status := "SWITCHOVER_COMPLETED";
                   SwitchoverDetails := [{| SourceMember := Some "test-rds-old";
                                            TargetMember := Some "test-rds" |}] |}
       | _ => None
       end;
     gw_create_blue_green_deployment := fun _ _ => 1%nat;
     gw_switchover_blue_green_deployment := fun _ _ => 2%nat;
     gw_delete_db_instance := fun _ _ => 3%nat;
     gw_delete_blue_green_deployment := fun _ _ _ => 4%nat;
     gw_time := fun _ => 0;
     gw_sleep := fun _ w => w |}.

(** the actions planned for a model, [] when planning fails *)
Definition ex_plan (m : BlueGreenDeploymentModel) : list BaseAction :=
  match plan_actions m with Ok acts => acts | Err _ => [] end.

(** the state a manager computation ends in, the given one when it fails *)
Definition ex_final {W A : Type} (r : result (A * MState W)) (s : MState W) : MState W :=
  match r with Ok (_, s') => s' | Err _ => s end.

(** the model of [test-rds] with no DB instance found *)
Definition ex_model_without_instance (bgd : option BlueGreenDeploymentTypeDef)
    : BlueGreenDeploymentModel :=
  {| state := INIT; db_instance_identifier := "test-rds"; config := ex_config true true None;
     db_instance := None; target_db_parameter_group := None;
     blue_green_deployment := bgd; source_db_instances := []; target_db_instances := [];
     tags := None; valid_upgrade_targets := [] |}.

(** * Properties *)

(** ** Construction *)

Ltac unfold_validators :=
  unfold _validate_db_instance_exist, _validate_target_parameter_group,
    _validate_deletion_protection, _validate_backup_retention_period,
    _validate_version_upgrade, _validate_supported_engine_version,
    _validate_source_parameter_group_status in *.

Ltac inv_ok :=
  repeat match goal with
  | H : Ok _ = Ok _ |- _ => injection H as H; subst
  | H : Err _ = Ok _ |- _ => discriminate H
  end.

Lemma bind_ok {A B} (r : result A) (f : A -> result B) (b : B) :
  bind r f = Ok b -> exists a, r = Ok a /\ f a = Ok b.
Proof. destruct r; simpl; intros H; [eauto | discriminate]. Qed.

Ltac split_binds :=
  repeat match goal with
  | H : bind _ _ = Ok _ |- _ =>
      let a := fresh "a" in let Ha := fresh "Ha" in
      apply bind_ok in H; destruct H as [a [Ha H]]
  end.

Ltac frame_tac :=
  unfold_validators; intros H;
  repeat (match goal with
          | H : context [match ?x with _ => _ end] |- _ => destruct x
          end; split_binds; inv_ok); inv_ok; try reflexivity; try discriminate.

(** Every validator after [_init_state] returns the model unchanged. *)
Lemma db_instance_exist_frame m m' : _validate_db_instance_exist m = Ok m' -> m' = m.
Proof. frame_tac. Qed.
Lemma target_parameter_group_frame m m' : _validate_target_parameter_group m = Ok m' -> m' = m.
Proof. frame_tac. Qed.
Lemma deletion_protection_frame m m' : _validate_deletion_protection m = Ok m' -> m' = m.
Proof. frame_tac. Qed.
Lemma backup_retention_period_frame m m' : _validate_backup_retention_period m = Ok m' -> m' = m.
Proof. frame_tac. Qed.
Lemma version_upgrade_frame m m' : _validate_version_upgrade m = Ok m' -> m' = m.
Proof. frame_tac. Qed.
Lemma supported_engine_version_frame m m' : _validate_supported_engine_version m = Ok m' -> m' = m.
Proof. frame_tac. Qed.
Lemma source_parameter_group_status_frame m m' :
  _validate_source_parameter_group_status m = Ok m' -> m' = m.
Proof. frame_tac. Qed.

Lemma validate_before_engine_version_init_state (raw m : BlueGreenDeploymentModel) :
  validate_before_engine_version raw = Ok m -> _init_state raw = Ok m.
Proof.
  unfold validate_before_engine_version. intros H. split_binds.
  apply version_upgrade_frame in H. apply backup_retention_period_frame in Ha3.
  apply deletion_protection_frame in Ha2. apply target_parameter_group_frame in Ha1.
  apply db_instance_exist_frame in Ha0. subst. assumption.
Qed.

Lemma validate_model_init_state (raw m : BlueGreenDeploymentModel) :
  validate_model raw = Ok m -> _init_state raw = Ok m.
Proof.
  unfold validate_model. intros H. split_binds.
  apply source_parameter_group_status_frame in H.
  apply supported_engine_version_frame in Ha0. subst.
  apply validate_before_engine_version_init_state. assumption.
Qed.

(** ** Derived state *)

Lemma set_state_state m s : state (set_state m s) = s.
Proof. reflexivity. Qed.

Lemma set_state_config m s : config (set_state m s) = config m.
Proof. reflexivity. Qed.

(** C2: with deployment status "SWITCHOVER_COMPLETED", no resolvable
    source member gives [source_db_instances_deleted], a source member
    being deleted gives [deleting_source_db_instances], anything else
    [switchover_completed]; with no source member the plan is a [delete]
    then a [wait_for_deleted] and holds no [delete_source_db_instance]. *)
Theorem C2_switchover_completed_state (raw m : BlueGreenDeploymentModel)
    (b : BlueGreenDeploymentTypeDef) :
  validate_model raw = Ok m ->
  blue_green_deployment raw = Some b ->
  Status b = "SWITCHOVER_COMPLETED" ->
  state m = match source_db_instances raw with
            | [] => SOURCE_DB_INSTANCES_DELETED
            | srcs =>
                if existsb (fun db => String.eqb (DBInstanceStatus db) "deleting") srcs
                then DELETING_SOURCE_DB_INSTANCES
                else SWITCHOVER_COMPLETED
            end
  /\ (source_db_instances raw = [] ->
      plan_actions m = Ok [SimpleAction AT_DELETE DELETING;
                           SimpleAction AT_WAIT_FOR_DELETED NO_OP]
      /\ forall acts, plan_actions m = Ok acts ->
         forall a, In a acts -> type a <> AT_DELETE_SOURCE_DB_INSTANCE).
Proof.
  intros Hv Hb Hs.
  apply validate_model_init_state in Hv.
  unfold _init_state in Hv. rewrite Hb, Hs in Hv. simpl in Hv.
  assert (Hst : state m = match source_db_instances raw with
            | [] => SOURCE_DB_INSTANCES_DELETED
            | srcs =>
                if existsb (fun db => String.eqb (DBInstanceStatus db) "deleting") srcs
                then DELETING_SOURCE_DB_INSTANCES
                else SWITCHOVER_COMPLETED
            end).
  { destruct (source_db_instances raw) as [|x l]; simpl in *;
      [| destruct (_ || _)]; inv_ok; reflexivity. }
  split; [exact Hst|].
  intros Hnil. rewrite Hnil in Hst.
  assert (Hp : plan_actions m = Ok [SimpleAction AT_DELETE DELETING;
                                    SimpleAction AT_WAIT_FOR_DELETED NO_OP]).
  { unfold plan_actions. rewrite Hst. reflexivity. }
  split; [exact Hp|].
  intros acts Hacts a Hin. rewrite Hp in Hacts. inv_ok.
  simpl in Hin. destruct Hin as [<- | [<- | []]]; discriminate.
Qed.

(** C10: [is_blue_green_deployment_available] holds exactly when the
    deployment is present with status "AVAILABLE" and every (possibly
    none) target member is "available"; so status "AVAILABLE" with no
    resolvable target member derives [available]. *)
Theorem C10_available_vacuous :
  (forall m : BlueGreenDeploymentModel,
     is_blue_green_deployment_available m = true <->
     exists b, blue_green_deployment m = Some b /\ Status b = "AVAILABLE" /\
       forall db, In db (target_db_instances m) -> DBInstanceStatus db = "available")
  /\ (forall (raw m : BlueGreenDeploymentModel) (b : BlueGreenDeploymentTypeDef),
        validate_model raw = Ok m ->
        blue_green_deployment raw = Some b ->
        Status b = "AVAILABLE" ->
        target_db_instances raw = [] ->
        state m = AVAILABLE).
Proof.
  split.
  - intros m. unfold is_blue_green_deployment_available.
    destruct (blue_green_deployment m) as [b|]; split.
    + intros H. apply andb_prop in H as [H1 H2].
      exists b. split; [reflexivity|]. split; [apply String.eqb_eq; exact H1|].
      intros db Hin. rewrite forallb_forall in H2. apply String.eqb_eq. auto.
    + intros [b' [Hb [Hs Hall]]]. injection Hb as <-.
      rewrite Hs. simpl. apply forallb_forall.
      intros db Hin. apply String.eqb_eq. auto.
    + discriminate.
    + intros [b' [Hb _]]. discriminate.
  - intros raw m b Hv Hb Hs Ht.
    apply validate_model_init_state in Hv.
    unfold _init_state in Hv. rewrite Hb, Hs in Hv. simpl in Hv.
    unfold is_blue_green_deployment_available in Hv. rewrite Hb, Hs, Ht in Hv.
    simpl in Hv. inv_ok. reflexivity.
Qed.

(** ** Planning *)

Lemma State_eqb_true a b : State_eqb a b = true <-> a = b.
Proof. unfold State_eqb. destruct (State_eq_dec a b); split; congruence. Qed.

Lemma existsb_State_eqb x l : existsb (State_eqb x) l = true <-> In x l.
Proof.
  rewrite existsb_exists. split.
  - intros [y [Hin Heq]]. apply State_eqb_true in Heq. subst. exact Hin.
  - intros Hin. exists x. split; [exact Hin | apply State_eqb_true; reflexivity].
Qed.

(** Every action the loop returns was either already there or produced by
    the routing function of some state, with a next state that this state
    allows. *)
Lemma plan_loop_sound (graph : StateGraph) fuel s acc acts :
  plan_loop graph fuel s acc = Ok acts ->
  forall a, In a acts ->
    In a acc \/ exists s' r allowed, graph s' = Some (r, allowed) /\
                 r tt = Ok (Some a) /\ In (next_state a) allowed.
Proof.
  revert s acc. induction fuel as [|fuel IH]; intros s acc H a Hin; simpl in H.
  - destruct (State_eqb s NO_OP); inv_ok; auto.
  - destruct (State_eqb s NO_OP); [inv_ok; auto|].
    destruct (graph s) as [[r allowed]|] eqn:Hg; [|discriminate].
    destruct (r tt) as [[a'|]|e] eqn:Hr; simpl in H; [| inv_ok; auto | discriminate].
    destruct (existsb (State_eqb (next_state a')) allowed) eqn:Hex; [|discriminate].
    destruct (IH _ _ H a Hin) as [Hacc | Hex'].
    + destruct (ActionType_eqb (type a') AT_NO_OP); [auto|].
      apply in_app_or in Hacc. destruct Hacc as [Hacc | [<- | []]]; [auto|].
      right. exists s, r, allowed. repeat split; auto.
      apply existsb_State_eqb. exact Hex.
    + right. exact Hex'.
Qed.

(** A routing result outside the allowed set raises at once. *)
Lemma plan_loop_rejects (graph : StateGraph) fuel s acc r allowed a :
  s <> NO_OP -> graph s = Some (r, allowed) -> r tt = Ok (Some a) ->
  ~ In (next_state a) allowed ->
  plan_loop graph (S fuel) s acc = Err (ValueError_InvalidNextState (next_state a) s).
Proof.
  intros Hs Hg Hr Hn. simpl.
  destruct (State_eqb s NO_OP) eqn:E; [apply State_eqb_true in E; contradiction|].
  rewrite Hg, Hr. simpl.
  destruct (existsb (State_eqb (next_state a)) allowed) eqn:Hex; [|reflexivity].
  apply existsb_State_eqb in Hex. contradiction.
Qed.

(** A table whose routing functions only return allowed next states and
    never raise the planner's own error. *)
Definition graph_consistent (graph : StateGraph) : Prop :=
  forall s r allowed, graph s = Some (r, allowed) ->
    match r tt with
    | Ok (Some a) => In (next_state a) allowed
    | Ok None => True
    | Err e => forall n s', e <> ValueError_InvalidNextState n s'
    end.

Lemma plan_loop_consistent (graph : StateGraph) fuel s acc n s' :
  graph_consistent graph ->
  plan_loop graph fuel s acc <> Err (ValueError_InvalidNextState n s').
Proof.
  intros Hc. revert s acc. induction fuel as [|fuel IH]; intros s acc; simpl.
  - destruct (State_eqb s NO_OP); discriminate.
  - destruct (State_eqb s NO_OP); [discriminate|].
    destruct (graph s) as [[r allowed]|] eqn:Hg; [|discriminate].
    pose proof (Hc _ _ _ Hg) as Hcs.
    destruct (r tt) as [[a|]|e] eqn:Hr; simpl; [| discriminate |].
    + destruct (existsb (State_eqb (next_state a)) allowed) eqn:Hex; [apply IH|].
      apply existsb_State_eqb in Hcs. congruence.
    + intros He. injection He as He. exact (Hcs n s' He).
Qed.

Lemma no_changes_errors m e :
  _no_changes m = Err e ->
  e = AssertionError \/ e = IndexError \/ e = KeyError "Iops" \/ e = KeyError "StorageThroughput".
Proof.
  unfold _no_changes, current_instance.
  destruct (db_instance m) as [inst|]; [|intros H; injection H; auto].
  destruct (DBParameterGroups inst), (Iops inst), (StorageThroughput inst); simpl;
    intros H; first [discriminate | injection H; auto 6].
Qed.

Lemma state_graph_consistent (m : BlueGreenDeploymentModel) :
  graph_consistent (_state_graph m).
Proof.
  intros s r allowed Hg.
  destruct s; simpl in Hg; try discriminate; injection Hg as <- <-; simpl; auto.
  - unfold _route_init.
    destruct (BlueGreenDeployment.delete (config m)), (BlueGreenDeployment.switchover (config m));
      simpl; try (destruct (_no_changes m) as [[|]|e] eqn:Hn; simpl);
      try (destruct (db_instance m); simpl); auto; intros; try discriminate.
    all: apply no_changes_errors in Hn; repeat destruct Hn as [Hn|Hn]; subst; discriminate.
  - unfold _route_available.
    destruct (BlueGreenDeployment.switchover (config m)),
      (BlueGreenDeployment.delete (config m)); simpl; auto.
  - unfold _route_switchover_completed.
    destruct (BlueGreenDeployment.delete (config m)); simpl; auto.
Qed.

(** C1: every action [plan_actions] returns comes from the routing
    function of a state of the transition table, with a next state in the
    set the table allows for that state; the table of the model never
    makes [plan_actions] raise the invalid-next-state error; and for any
    table, a routing function returning a next state outside its allowed
    set makes the planning loop raise that error at once. *)
Theorem C1_plan_actions_allowed_next_states :
  (forall (m : BlueGreenDeploymentModel) acts, plan_actions m = Ok acts ->
     forall a, In a acts ->
       exists s r allowed, _state_graph m s = Some (r, allowed) /\
         r tt = Ok (Some a) /\ In (next_state a) allowed)
  /\ (forall (m : BlueGreenDeploymentModel) n s,
        plan_actions m <> Err (ValueError_InvalidNextState n s))
  /\ (forall (graph : StateGraph) fuel s acc r allowed a,
        s <> NO_OP -> graph s = Some (r, allowed) -> r tt = Ok (Some a) ->
        ~ In (next_state a) allowed ->
        plan_loop graph (S fuel) s acc = Err (ValueError_InvalidNextState (next_state a) s)).
Proof.
  split; [|split].
  - intros m acts H a Hin.
    destruct (plan_loop_sound _ _ _ _ _ H a Hin) as [[] | Hex]. exact Hex.
  - intros m n s. apply plan_loop_consistent, state_graph_consistent.
  - intros graph fuel s acc r allowed a Hs Hg Hr Hn.
    apply (plan_loop_rejects graph fuel s acc r allowed a); assumption.
Qed.

(** The transition table is acyclic: [plan_fuel] iterations always
    suffice, so [plan_actions] never runs out of fuel. *)
Lemma plan_actions_never_diverges (m : BlueGreenDeploymentModel) :
  plan_actions m <> Err Diverged.
Proof.
  unfold plan_actions, _state_graph, _route_init, _route_available,
    _route_switchover_completed.
  destruct (state m); simpl; try discriminate;
    destruct (BlueGreenDeployment.delete (config m)),
      (BlueGreenDeployment.switchover (config m)); simpl; try discriminate;
    try (destruct (_no_changes m) as [[|]|e] eqn:Hn; simpl; try discriminate);
    try (destruct (db_instance m); simpl; try discriminate);
    apply no_changes_errors in Hn; repeat destruct Hn as [Hn|Hn]; subst; discriminate.
Qed.

(** ** The [init] route and [_no_changes] *)








(** ** The create request *)

(** the key of a field present in the request, when it is set *)
Definition key_if_set {A} (key : string) (o : option A) : list string :=
  match o with
  | Some _ => [key]
  | None => []
  end.

Lemma dump_field_keys {A} alias (f : A -> JsonValue) o :
  map fst (dump_field alias f o) = key_if_set alias o.
Proof. destruct o; reflexivity. Qed.

(** C6: the request sent for a planned [create] action (the kwargs the
    [create] handler passes to the RDS client) holds exactly the
    deployment name, the source ARN, one key per explicitly set target
    field and [Tags] when tags are set; for a target setting only
    [engine_version = "16.3"] and no tags it is exactly the name, the
    source ARN and the engine version. *)
Theorem C6_create_request_sparse :
  (forall (m : BlueGreenDeploymentModel) a p,
     _route_init m = Ok (Some a) -> type a = AT_CREATE -> payload a = Some p ->
     let t := target_or_default m in
     exists inst, db_instance m = Some inst /\
     firstn 2 (model_dump_by_alias_exclude_none p) =
       [("BlueGreenDeploymentName", JStr (db_instance_identifier m));
        ("Source", JStr (DBInstanceArn inst))] /\
     map fst (model_dump_by_alias_exclude_none p) =
       (["BlueGreenDeploymentName"; "Source"]
       ++ key_if_set "TargetAllocatedStorage" (BlueGreenDeploymentTarget.allocated_storage t)
       ++ key_if_set "TargetEngineVersion" (BlueGreenDeploymentTarget.engine_version t)
       ++ key_if_set "TargetDBInstanceClass" (BlueGreenDeploymentTarget.instance_class t)
       ++ key_if_set "TargetIops" (BlueGreenDeploymentTarget.iops t)
       ++ key_if_set "TargetDBParameterGroupName" (target_parameter_group_name t)
       ++ key_if_set "TargetStorageThroughput" (BlueGreenDeploymentTarget.storage_throughput t)
       ++ key_if_set "TargetStorageType" (BlueGreenDeploymentTarget.storage_type t)
       ++ key_if_set "Tags" (tags m))%list)
  /\ (forall (m : BlueGreenDeploymentModel) a p inst,
        BlueGreenDeployment.target (config m) = Some (ex_target_engine_version "16.3") ->
        tags m = None ->
        db_instance m = Some inst ->
        _route_init m = Ok (Some a) -> type a = AT_CREATE -> payload a = Some p ->
        model_dump_by_alias_exclude_none p =
          [("BlueGreenDeploymentName", JStr (db_instance_identifier m));
           ("Source", JStr (DBInstanceArn inst));
           ("TargetEngineVersion", JStr "16.3")]).
Proof.
  assert (Hcreate : forall (m : BlueGreenDeploymentModel) a p,
     _route_init m = Ok (Some a) -> type a = AT_CREATE -> payload a = Some p ->
     exists inst, db_instance m = Some inst /\
       p = {| CreateBlueGreenDeploymentParams.name := db_instance_identifier m;
              CreateBlueGreenDeploymentParams.source_arn := DBInstanceArn inst;
              CreateBlueGreenDeploymentParams.allocated_storage :=
                BlueGreenDeploymentTarget.allocated_storage (target_or_default m);
              CreateBlueGreenDeploymentParams.engine_version :=
                BlueGreenDeploymentTarget.engine_version (target_or_default m);
              CreateBlueGreenDeploymentParams.instance_class :=
                BlueGreenDeploymentTarget.instance_class (target_or_default m);
              CreateBlueGreenDeploymentParams.iops :=
                BlueGreenDeploymentTarget.iops (target_or_default m);
              CreateBlueGreenDeploymentParams.parameter_group_name :=
                target_parameter_group_name (target_or_default m);
              CreateBlueGreenDeploymentParams.storage_throughput :=
                BlueGreenDeploymentTarget.storage_throughput (target_or_default m);
              CreateBlueGreenDeploymentParams.storage_type :=
                BlueGreenDeploymentTarget.storage_type (target_or_default m);
              CreateBlueGreenDeploymentParams.tags := tags m |}).
  { intros m a p Hr Ht Hp. unfold _route_init in Hr.
    destruct (db_instance m) as [inst|] eqn:Hi.
    - exists inst. split; [reflexivity|].
      destruct (BlueGreenDeployment.delete (config m)),
        (BlueGreenDeployment.switchover (config m)); simpl in Hr;
        try (destruct (_no_changes m) as [[|]|e]; simpl in Hr);
        inv_ok; try discriminate; simpl in Hp; injection Hp as <-; reflexivity.
    - destruct (BlueGreenDeployment.delete (config m)),
        (BlueGreenDeployment.switchover (config m)); simpl in Hr;
        try (destruct (_no_changes m) as [[|]|e]; simpl in Hr);
        inv_ok; discriminate. }
  split.
  - intros m a p Hr Ht Hp t.
    destruct (Hcreate m a p Hr Ht Hp) as [inst [Hi ->]].
    exists inst. split; [exact Hi|]. split; [reflexivity|].
    unfold model_dump_by_alias_exclude_none. rewrite !map_app, !dump_field_keys.
    reflexivity.
  - intros m a p inst Htg Htags Hi Hr Ht Hp.
    destruct (Hcreate m a p Hr Ht Hp) as [inst' [Hi' ->]].
    rewrite Hi in Hi'. injection Hi' as <-.
    unfold model_dump_by_alias_exclude_none, target_or_default. rewrite Htg, Htags.
    reflexivity.
Qed.

(** ** Engine version support *)

(** The postgres rule in the words of the spec: the minor must reach the
    published minimum of its major, a major beyond the last listed one
    always passes. *)
Definition postgres_min_rule (maj min : Z) : Prop :=
  (maj = 11 /\ 21 <= min) \/ (maj = 12 /\ 16 <= min) \/ (maj = 13 /\ 12 <= min) \/
  (maj = 14 /\ 9 <= min) \/ (maj = 15 /\ 4 <= min) \/ (maj = 16 /\ 1 <= min) \/
  16 < maj.

(** The mysql rule: major.minor is one of 5.7, 8.0, 8.4. *)
Definition mysql_rule (maj min : Z) : Prop :=
  (maj = 5 /\ min = 7) \/ (maj = 8 /\ min = 0) \/ (maj = 8 /\ min = 4).

Definition v16_1 : Version :=
  {| major := 16; minor := 1; patch := 0; prerelease := None; build := None |}.

Lemma postgres_min_versions_parsed :
  map_result parse_semver postgres_min_supported_versions =
  Ok (map (fun '(a, b) => {| major := a; minor := b; patch := 0;
                             prerelease := None; build := None |})
          [(11, 21); (12, 16); (13, 12); (14, 9); (15, 4); (16, 1)]).
Proof. reflexivity. Qed.

Lemma mysql_versions_parsed :
  map_result parse_semver mysql_supported_versions =
  Ok (map (fun '(a, b) => {| major := a; minor := b; patch := 0;
                             prerelease := None; build := None |})
          [(5, 7); (8, 0); (8, 4)]).
Proof. reflexivity. Qed.

Lemma version_ge_v16_1 (ver : Version) :
  version_ge ver v16_1 = true -> 16 < major ver \/ (major ver = 16 /\ 1 <= minor ver).
Proof.
  unfold version_ge, version_compare. simpl.
  destruct (Z.compare_spec (major ver) 16) as [E|E|E].
  - destruct (Z.compare_spec (minor ver) 1) as [E2|E2|E2]; intros H; try discriminate; lia.
  - intros H; discriminate.
  - intros _. lia.
Qed.

Lemma version_ge_v16_1_gt (ver : Version) :
  16 < major ver -> version_ge ver v16_1 = true.
Proof.
  intros H. unfold version_ge, version_compare. simpl.
  destruct (Z.compare_spec (major ver) 16); try lia; reflexivity.
Qed.

Lemma postgres_supported_spec (v : string) (ver : Version) :
  parse_semver v = Ok ver ->
  exists b, _is_postgres_version_supported v = Ok b /\
    (b = true <-> postgres_min_rule (major ver) (minor ver)).
Proof.
  intros Hp. unfold _is_postgres_version_supported.
  rewrite Hp, postgres_min_versions_parsed. simpl.
  change {| major := 16; minor := 1; patch := 0; prerelease := None; build := None |}
    with v16_1.
  destruct (version_ge ver v16_1) eqn:Hge.
  - eexists. split; [reflexivity|]. split; [|reflexivity].
    intros _. apply version_ge_v16_1 in Hge. unfold postgres_min_rule. lia.
  - eexists. split; [reflexivity|].
    rewrite !Bool.orb_true_iff, !Bool.andb_true_iff, !Z.eqb_eq, !Z.leb_le.
    unfold postgres_min_rule.
    assert (~ 16 < major ver) by (intros H; rewrite (version_ge_v16_1_gt ver H) in Hge; discriminate).
    split; intros H'; [lia|].
    destruct H' as [H'|[H'|[H'|[H'|[H'|[H'|H']]]]]]; try lia; tauto.
Qed.

Lemma mysql_supported_spec (v : string) (ver : Version) :
  parse_semver v = Ok ver ->
  exists b, _is_mysql_version_supported v = Ok b /\
    (b = true <-> mysql_rule (major ver) (minor ver)).
Proof.
  intros Hp. unfold _is_mysql_version_supported.
  rewrite Hp, mysql_versions_parsed. simpl.
  eexists. split; [reflexivity|].
  rewrite !Bool.orb_true_iff, !Bool.andb_true_iff, !Z.eqb_eq.
  unfold mysql_rule. intuition discriminate.
Qed.

Lemma mysql_supported_parse_error (v : string) e :
  parse_semver v = Err e -> _is_mysql_version_supported v = Err e.
Proof. intros Hp. unfold _is_mysql_version_supported. rewrite Hp. reflexivity. Qed.

Lemma init_state_ok (raw m : BlueGreenDeploymentModel) :
  _init_state raw = Ok m -> exists s, m = set_state raw s.
Proof.
  unfold _init_state. intros H.
  destruct (blue_green_deployment raw) as [b|]; [|inv_ok; eauto].
  repeat match goal with
  | H : context [if ?c then _ else _] |- _ => destruct c
  end; try destruct (source_db_instances raw); try (destruct (existsb _ _));
  inv_ok; eauto; discriminate.
Qed.

Lemma source_parameter_group_status_errors m e :
  _validate_source_parameter_group_status m = Err e ->
  e = ValueError_SourceParameterGroupNotInSync \/ e = AssertionError.
Proof.
  unfold _validate_source_parameter_group_status.
  destruct (db_instance m); [destruct (existsb _ _)|]; intros H; inv_ok;
    first [discriminate | injection H; auto].
Qed.

(** [validate_model] after the earlier validators passed: the engine
    version check on the model they return, then the parameter group
    status check. *)
Lemma validate_model_after_prefix (raw m1 : BlueGreenDeploymentModel) :
  validate_before_engine_version raw = Ok m1 ->
  validate_model raw =
    (m <- _validate_supported_engine_version m1 ;;
     _validate_source_parameter_group_status m).
Proof. intros H. unfold validate_model. rewrite H. reflexivity. Qed.

Lemma get_target_engine_version_set_state m s :
  _get_target_engine_version (set_state m s) = _get_target_engine_version m.
Proof. reflexivity. Qed.

(** C3: for a postgres instance whose selected upgrade target is a major
    version upgrade, once the earlier validators passed, construction
    raises "postgres engine_version <v> is not supported" exactly when the
    current version fails the minimum rule (11.21, 12.16, 13.12, 14.9,
    15.4, 16.1, any later major passing). *)
Theorem C3_postgres_major_upgrade_rule (raw m1 : BlueGreenDeploymentModel)
    (inst : DBInstance) (tv : string) (ut : UpgradeTarget) (ver : Version) :
  validate_before_engine_version raw = Ok m1 ->
  db_instance raw = Some inst ->
  Engine inst = "postgres" ->
  _get_target_engine_version raw = Some tv ->
  dict_get tv (valid_upgrade_targets raw) = Some ut ->
  IsMajorVersionUpgrade ut = true ->
  parse_semver (EngineVersion inst) = Ok ver ->
  (validate_model raw = Err (ValueError_PostgresNotSupported (EngineVersion inst)) <->
   ~ postgres_min_rule (major ver) (minor ver)).
Proof.
  intros Hpre Hi He Htv Hut Hmaj Hp.
  rewrite (validate_model_after_prefix raw m1 Hpre).
  apply validate_before_engine_version_init_state, init_state_ok in Hpre.
  destruct Hpre as [s ->].
  destruct (postgres_supported_spec _ _ Hp) as [b [Hb Hiff]].
  unfold _validate_supported_engine_version.
  rewrite get_target_engine_version_set_state. simpl.
  rewrite Htv, Hi, Hut, He, Hmaj. simpl. rewrite Hb.
  destruct b; simpl.
  - split.
    + intros Herr. apply source_parameter_group_status_errors in Herr.
      destruct Herr; discriminate.
    + intros Hn. exfalso. apply Hn, Hiff. reflexivity.
  - split; [|reflexivity].
    intros _ Hr. apply Hiff in Hr. discriminate.
Qed.

(** C4 (amended): when the selected upgrade target is not a major version
    upgrade, a postgres instance skips the version check (so construction
    never raises the postgres "not supported" error), a mysql instance is
    still checked (construction raises "mysql engine_version <v> is not
    supported" exactly when its major.minor is not 5.7, 8.0 or 8.4), and
    any other engine is rejected as unsupported. *)
Theorem C4_engine_check_amended (raw m1 : BlueGreenDeploymentModel)
    (inst : DBInstance) (tv : string) (ut : UpgradeTarget) :
  validate_before_engine_version raw = Ok m1 ->
  db_instance raw = Some inst ->
  _get_target_engine_version raw = Some tv ->
  dict_get tv (valid_upgrade_targets raw) = Some ut ->
  IsMajorVersionUpgrade ut = false ->
  (Engine inst = "postgres" ->
     validate_model raw = _validate_source_parameter_group_status m1 /\
     forall v, validate_model raw <> Err (ValueError_PostgresNotSupported v))
  /\ (Engine inst = "mysql" ->
       (validate_model raw = Err (ValueError_MysqlNotSupported (EngineVersion inst)) <->
        exists ver, parse_semver (EngineVersion inst) = Ok ver /\
                    ~ mysql_rule (major ver) (minor ver)))
  /\ (Engine inst <> "postgres" -> Engine inst <> "mysql" ->
       validate_model raw = Err (ValueError_UnsupportedEngine (Engine inst))).
Proof.
  intros Hpre Hi Htv Hut Hmaj.
  rewrite (validate_model_after_prefix raw m1 Hpre).
  apply validate_before_engine_version_init_state, init_state_ok in Hpre.
  destruct Hpre as [s ->].
  unfold _validate_supported_engine_version.
  rewrite get_target_engine_version_set_state. simpl.
  rewrite Htv, Hi, Hut. simpl.
  split; [|split].
  - intros He. rewrite He, Hmaj. simpl. split; [reflexivity|].
    intros v Herr. apply source_parameter_group_status_errors in Herr.
    destruct Herr; discriminate.
  - intros He. rewrite He. simpl.
    destruct (parse_semver (EngineVersion inst)) as [ver|e] eqn:Hp.
    + destruct (mysql_supported_spec _ _ Hp) as [b [Hb Hiff]]. rewrite Hb.
      destruct b; simpl.
      * split.
        -- intros Herr. apply source_parameter_group_status_errors in Herr.
           destruct Herr; discriminate.
        -- intros [ver' [Hv' Hn]]. injection Hv' as <-.
           exfalso. apply Hn, Hiff. reflexivity.
      * split; [|reflexivity].
        intros _. exists ver. split; [reflexivity|].
        intros Hr. apply Hiff in Hr. discriminate.
    + rewrite (mysql_supported_parse_error _ _ Hp). simpl.
      split.
      * intros Herr. injection Herr as ->.
        unfold parse_semver in Hp.
        destruct (parse_exact (EngineVersion inst));
          [discriminate|].
        destruct (strip_final_newline (EngineVersion inst));
          [destruct (parse_exact _)|]; inv_ok; discriminate.
      * intros [ver [Hv _]]. discriminate.
  - intros Hpg Hmy.
    apply String.eqb_neq in Hpg, Hmy. rewrite Hpg, Hmy. reflexivity.
Qed.

(** C4, as stated, fails for mysql: a mysql 5.6.2 instance kept on its
    own version (the current version is always offered as a non-major
    upgrade target) is rejected with the mysql "not supported" error. *)
Lemma C4_counterexample :
  let raw := ex_raw_model (ex_config false false None)
               (ex_db_instance "mysql" "5.6.2" [ex_pg_in_sync])
               None [] [] [ex_upgrade "5.6.2" false] in
  _get_target_engine_version raw = Some "5.6.2" /\
  option_map IsMajorVersionUpgrade (dict_get "5.6.2" (valid_upgrade_targets raw)) = Some false /\
  validate_model raw = Err (ValueError_MysqlNotSupported "5.6.2").
Proof. split; [reflexivity|]. split; reflexivity. Qed.

(** ** Witnesses *)

(** The C2 hypotheses hold for a deployment reported as switched over
    whose source instances are gone. *)
Lemma C2_witness :
  let raw := ex_raw_model (ex_config true false None)
               (ex_db_instance "postgres" "15.7" [ex_pg_in_sync])
               (Some (ex_bgd "SWITCHOVER_COMPLETED")) [] [] [ex_upgrade "15.7" false] in
  validate_model raw = Ok (set_state raw SOURCE_DB_INSTANCES_DELETED) /\
  plan_actions (set_state raw SOURCE_DB_INSTANCES_DELETED) =
    Ok [SimpleAction AT_DELETE DELETING; SimpleAction AT_WAIT_FOR_DELETED NO_OP].
Proof.
  intros raw.
  assert (Hv : validate_model raw = Ok (set_state raw SOURCE_DB_INSTANCES_DELETED))
    by (vm_compute; reflexivity).
  split; [exact Hv|].
  destruct (C2_switchover_completed_state raw _ (ex_bgd "SWITCHOVER_COMPLETED")
              Hv eq_refl eq_refl) as [_ H].
  apply H. reflexivity.
Defined.

(** The C3 hypotheses hold for postgres 15.3 upgraded to 17.1. *)
Lemma C3_witness :
  let raw := ex_raw_model (ex_config false false (Some (ex_target_engine_version "17.1")))
               (ex_db_instance "postgres" "15.3" [ex_pg_in_sync])
               None [] [] [ex_upgrade "17.1" true] in
  (validate_model raw = Err (ValueError_PostgresNotSupported "15.3") <->
   ~ postgres_min_rule 15 3).
Proof.
  intros raw.
  apply (C3_postgres_major_upgrade_rule raw (set_state raw INIT)
           (ex_db_instance "postgres" "15.3" [ex_pg_in_sync]) "17.1"
           (snd (ex_upgrade "17.1" true))
           {| major := 15; minor := 3; patch := 0; prerelease := None; build := None |});
    vm_compute; reflexivity.
Defined.

(** The C4 hypotheses hold for mysql 5.6.2 kept on its own version. *)
Lemma C4_witness :
  let raw := ex_raw_model (ex_config false false None)
               (ex_db_instance "mysql" "5.6.2" [ex_pg_in_sync])
               None [] [] [ex_upgrade "5.6.2" false] in
  (validate_model raw = Err (ValueError_MysqlNotSupported "5.6.2") <->
   exists ver, parse_semver "5.6.2" = Ok ver /\ ~ mysql_rule (major ver) (minor ver)).
Proof.
  intros raw.
  destruct (C4_engine_check_amended raw (set_state raw INIT)
              (ex_db_instance "mysql" "5.6.2" [ex_pg_in_sync]) "5.6.2"
              (snd (ex_upgrade "5.6.2" false))) as [_ [H _]];
    try (vm_compute; reflexivity).
  apply H. reflexivity.
Defined.


(** ** The orchestrator *)

(** C7: with no [blue_green_deployment] block, or one with
    [enabled = false], [run] returns [NOT_ENABLED] and leaves the run
    state as it found it: no gateway call is logged (read or mutating),
    the cloud is untouched and no model is built. *)
Theorem C7_not_enabled_no_calls {W : Type} (gw : CloudGateway W)
    (inp : AppInterfaceInput) (dry : bool) (fuel : nat) (s : MState W) :
  (data_blue_green_deployment inp = None \/
   exists cfg, data_blue_green_deployment inp = Some cfg /\
               BlueGreenDeployment.enabled cfg = false) ->
  run gw inp dry fuel s = Ok (NOT_ENABLED, s).
Proof.
  intros [Hnone | [cfg [Hcfg Hen]]]; unfold run.
  - rewrite Hnone. reflexivity.
  - rewrite Hcfg, Hen. reflexivity.
Qed.

(** A computation that only reads: it leaves the cloud and [self.model]
    alone and logs only non-mutating calls. *)
Definition read_only {W A : Type} (x : M A) : Prop :=
  forall (s s' : MState W) (a : A), x s = Ok (a, s') ->
    world s' = world s /\ model s' = model s /\
    exists new, calls s' = (calls s ++ new)%list /\
                forallb (fun c => negb (is_mutating c)) new = true.

Lemma read_only_ret {W A : Type} (a : A) : @read_only W A (ret a).
Proof.
  intros s s' a' H. injection H as <- <-.
  split; [reflexivity|]. split; [reflexivity|].
  exists []. rewrite app_nil_r. split; reflexivity.
Qed.

Lemma read_only_read {W A : Type} (c : Call) (f : W -> A) :
  is_mutating c = false -> read_only (read c f).
Proof.
  intros Hc s s' a H. injection H as <- <-.
  split; [reflexivity|]. split; [reflexivity|].
  exists [c]. simpl. rewrite Hc. split; reflexivity.
Qed.

Lemma read_only_lift {W A : Type} (r : result A) : @read_only W A (lift r).
Proof.
  intros s s' a H. unfold lift in H. destruct r; [|discriminate].
  injection H as <- <-.
  split; [reflexivity|]. split; [reflexivity|].
  exists []. rewrite app_nil_r. split; reflexivity.
Qed.

Lemma read_only_bind {W A B : Type} (x : M A) (f : A -> M B) :
  @read_only W A x -> (forall a, read_only (f a)) -> read_only (mbind x f).
Proof.
  intros Hx Hf s s'' b H. unfold mbind in H.
  destruct (x s) as [[a s']|e] eqn:E; [|discriminate]. simpl in H.
  destruct (Hx _ _ _ E) as [Hw1 [Hm1 [n1 [Hc1 Hn1]]]].
  destruct (Hf a _ _ _ H) as [Hw2 [Hm2 [n2 [Hc2 Hn2]]]].
  split; [congruence|]. split; [congruence|].
  exists (n1 ++ n2)%list. rewrite Hc2, Hc1, app_assoc.
  split; [reflexivity|]. rewrite forallb_app, Hn1, Hn2. reflexivity.
Qed.

Lemma fetch_members_read_only {W : Type} (gw : CloudGateway W) key ds :
  read_only (fetch_members gw key ds).
Proof.
  induction ds as [|d rest IH]; simpl.
  - apply read_only_ret.
  - destruct (truthy_str (member_of key d)) as [identifier|]; [|exact IH].
    apply read_only_bind; [apply read_only_read; reflexivity|]. intros inst.
    apply read_only_bind; [exact IH|]. intros insts. apply read_only_ret.
Qed.

Lemma build_model_read_only {W : Type} (gw : CloudGateway W) inp cfg :
  read_only (_build_model gw inp cfg).
Proof.
  unfold _build_model.
  apply read_only_bind; [apply read_only_read; reflexivity|]. intros db_inst.
  apply read_only_bind.
  { destruct db_inst; [apply read_only_read; reflexivity | apply read_only_ret]. }
  intros vut. apply read_only_bind.
  { destruct (truthy_str _); [apply read_only_read; reflexivity | apply read_only_ret]. }
  intros tpg. apply read_only_bind; [apply read_only_read; reflexivity|]. intros bgd.
  apply read_only_bind.
  { destruct bgd; [apply fetch_members_read_only | apply read_only_ret]. }
  intros srcs. apply read_only_bind.
  { destruct bgd; [apply fetch_members_read_only | apply read_only_ret]. }
  intros tgts. apply read_only_lift.
Qed.

(** In dry run the action loop is the identity. *)
Lemma run_actions_dry {W : Type} (gw : CloudGateway W) fuel acts (s : MState W) :
  run_actions gw true fuel acts s = Ok (tt, s).
Proof.
  revert s. induction acts as [|a rest IH]; intros s; simpl; [reflexivity|].
  apply IH.
Qed.

(** C8: in dry run an enabled deployment is built from reads only, no
    handler runs and the state is never advanced: a successful [run]
    returns the state the model had when it was built, leaves that very
    model in [self.model], leaves the cloud untouched and logs only
    non-mutating calls. *)
Theorem C8_dry_run_keeps_built_state {W : Type} (gw : CloudGateway W)
    (inp : AppInterfaceInput) (fuel : nat) (cfg : BlueGreenDeployment.t)
    (s0 s1 : MState W) (st : State) :
  data_blue_green_deployment inp = Some cfg ->
  BlueGreenDeployment.enabled cfg = true ->
  run gw inp true fuel s0 = Ok (st, s1) ->
  exists m sb,
    _build_model gw inp cfg s0 = Ok (m, sb) /\
    (exists acts, plan_actions m = Ok acts) /\
    st = state m /\ model s1 = Some m /\ world s1 = world s0 /\
    exists new, calls s1 = (calls s0 ++ new)%list /\
                forallb (fun c => negb (is_mutating c)) new = true.
Proof.
  intros Hcfg Hen Hrun. unfold run in Hrun. rewrite Hcfg, Hen in Hrun. simpl in Hrun.
  unfold mbind at 1 in Hrun.
  destruct (_build_model gw inp cfg s0) as [[m sb]|e] eqn:Hb; [|discriminate].
  simpl in Hrun.
  destruct (build_model_read_only gw inp cfg _ _ _ Hb) as [Hw [_ [new [Hc Hn]]]].
  exists m, sb. split; [reflexivity|].
  unfold mbind, put_model, lift in Hrun. simpl in Hrun.
  destruct (plan_actions m) as [acts|e] eqn:Hp; [|discriminate].
  simpl in Hrun. rewrite run_actions_dry in Hrun. simpl in Hrun.
  injection Hrun as <- <-. simpl.
  split; [exists acts; reflexivity|].
  split; [reflexivity|]. split; [reflexivity|]. split; [exact Hw|].
  exists new. split; assumption.
Qed.

(** The C7 hypothesis holds for a block with [enabled = false]. *)
Lemma C7_witness :
  let cfg := {| BlueGreenDeployment.enabled := false;
                BlueGreenDeployment.switchover := true;
                BlueGreenDeployment.delete := false;
                BlueGreenDeployment.target := None |} in
  run ex_gateway (ex_input (Some cfg)) false 3 ex_mstate = Ok (NOT_ENABLED, ex_mstate).
Proof.
  intros cfg.
  apply C7_not_enabled_no_calls. right. exists cfg. split; reflexivity.
Defined.

(** The C8 hypotheses hold for a dry run planning a 15.7 to 16.3 upgrade. *)
Lemma C8_witness :
  let cfg := ex_config false false (Some (ex_target_engine_version "16.3")) in
  let m := ex_raw_model cfg (ex_db_instance "postgres" "15.7" [ex_pg_in_sync])
             None [] [] [ex_upgrade "15.7" false; ex_upgrade "16.3" true] in
  let s1 := {| world := tt;
               calls := [Call_get_db_instance "test-rds";
                         Call_get_blue_green_deployment_valid_upgrade_targets "postgres" "15.7";
                         Call_get_blue_green_deployment "test-rds"];
               model := Some m |} in
  run ex_gateway (ex_input (Some cfg)) true 3 ex_mstate = Ok (INIT, s1) /\
  exists m' sb, _build_model ex_gateway (ex_input (Some cfg)) cfg ex_mstate = Ok (m', sb) /\
                INIT = state m' /\ model s1 = Some m'.
Proof.
  intros cfg m s1.
  assert (E : run ex_gateway (ex_input (Some cfg)) true 3 ex_mstate = Ok (INIT, s1))
    by (vm_compute; reflexivity).
  split; [exact E|].
  destruct (C8_dry_run_keeps_built_state ex_gateway (ex_input (Some cfg)) 3 cfg
              ex_mstate s1 INIT eq_refl eq_refl E)
    as [m' [sb [Hb [_ [Hst [Hm _]]]]]].
  exists m', sb. split; [exact Hb|]. split; assumption.
Defined.

(** ** The wait primitive *)

(** One failed check that did not see the timeout, followed by a sleep
    of a non-negative length, uses one iteration. *)
Lemma wait_loop_failed_step {St : Type} (time_ : St -> Z) (sleep_ : Z -> St -> St)
    condition timeout interval start fuel (s s1 : St) :
  condition s = Ok (false, s1) ->
  timed_out timeout (time_ s1 - start) = false ->
  0 <= interval ->
  wait_loop time_ sleep_ condition timeout interval start (S fuel) s =
  wait_loop time_ sleep_ condition timeout interval start fuel (sleep_ interval s1).
Proof.
  intros Hc Ht Hi. cbn [wait_loop]. rewrite Hc. cbn [bind].
  assert (Hi' : (interval <? 0) = false) by (apply Z.ltb_ge; lia).
  rewrite Hi'.
  destruct timeout as [t|]; simpl in Ht; [rewrite Ht|]; reflexivity.
Qed.

(** [k] failed checks at the states [c 0], ..., [c (k-1)], ending in the
    states [e j], none of which saw the timeout, each followed by a sleep
    that leads to [c (j+1)], use [k] iterations. *)
Lemma wait_loop_prefix {St : Type} (time_ : St -> Z) (sleep_ : Z -> St -> St)
    condition timeout interval start (c e : nat -> St) k :
  forall fuel,
  (k <= fuel)%nat ->
  (forall j, (j < k)%nat ->
     condition (c j) = Ok (false, e j) /\
     timed_out timeout (time_ (e j) - start) = false /\
     0 <= interval /\
     c (S j) = sleep_ interval (e j)) ->
  wait_loop time_ sleep_ condition timeout interval start fuel (c 0%nat) =
  wait_loop time_ sleep_ condition timeout interval start (fuel - k) (c k).
Proof.
  induction k as [|k IH]; intros fuel Hk Hj.
  - rewrite Nat.sub_0_r. reflexivity.
  - rewrite (IH fuel ltac:(lia) (fun j Hjk => Hj j ltac:(lia))).
    destruct (Hj k ltac:(lia)) as [Hc [Ht [Hi Hs]]].
    replace (fuel - k)%nat with (S (fuel - S k)) by lia.
    rewrite Hs. apply (wait_loop_failed_step time_ sleep_ condition); assumption.
Qed.

(** Without a timeout the loop raises [TimeoutError] only when the
    condition does. *)
Lemma wait_loop_no_timeout {St : Type} (time_ : St -> Z) (sleep_ : Z -> St -> St)
    condition interval start :
  (forall s t, condition s <> Err (TimeoutError t)) ->
  forall fuel s t,
  wait_loop time_ sleep_ condition None interval start fuel s <> Err (TimeoutError t).
Proof.
  intros Hc fuel. induction fuel as [|fuel IH]; intros s t; [discriminate|].
  cbn [wait_loop]. destruct (condition s) as [[met s1]|err] eqn:E; cbn [bind].
  - destruct met; [discriminate|].
    destruct (interval <? 0); [discriminate | apply IH].
  - intros H. injection H as ->. exact (Hc s t E).
Qed.

(** C9 (amended): [wait_for] reads the clock once before the first check;
    after every failed check it reads the clock again and raises
    [TimeoutError] if a timeout is set and the time elapsed since that
    first reading has reached it, and otherwise sleeps [interval] seconds
    ([time.sleep] raising ValueError for a negative length) and checks
    again. Stated for any clock and any condition, including checks that
    take time: if the first [k] checks failed without seeing the timeout,
    then a true [k]-th check returns normally, even after the timeout; a
    false [k]-th check raises [TimeoutError] exactly when the timeout has
    been reached by its end, and otherwise a negative interval raises
    ValueError; an exception of the [k]-th check propagates. With no
    timeout, [TimeoutError] is raised only by the condition itself. *)
Theorem C9_wait_for_amended {St : Type} (time_ : St -> Z) (sleep_ : Z -> St -> St)
    (condition : St -> result (bool * St)) (timeout : option Z) (interval : Z)
    (c e : nat -> St) (k fuel : nat) :
  (k < fuel)%nat ->
  (forall j, (j < k)%nat ->
     condition (c j) = Ok (false, e j) /\
     timed_out timeout (time_ (e j) - time_ (c 0%nat)) = false /\
     0 <= interval /\
     c (S j) = sleep_ interval (e j)) ->
  (condition (c k) = Ok (true, e k) ->
   wait_for time_ sleep_ condition timeout interval fuel (c 0%nat) = Ok (tt, e k))
  /\ (condition (c k) = Ok (false, e k) ->
      timed_out timeout (time_ (e k) - time_ (c 0%nat)) = true ->
      exists t, timeout = Some t /\
        wait_for time_ sleep_ condition timeout interval fuel (c 0%nat)
        = Err (TimeoutError t))
  /\ (condition (c k) = Ok (false, e k) ->
      timed_out timeout (time_ (e k) - time_ (c 0%nat)) = false ->
      interval < 0 ->
      wait_for time_ sleep_ condition timeout interval fuel (c 0%nat)
      = Err ValueError_NegativeSleepLength)
  /\ (forall err, condition (c k) = Err err ->
      wait_for time_ sleep_ condition timeout interval fuel (c 0%nat) = Err err)
  /\ (timeout = None -> (forall s t, condition s <> Err (TimeoutError t)) ->
      forall fuel' s t,
      wait_for time_ sleep_ condition timeout interval fuel' s <> Err (TimeoutError t)).
Proof.
  intros Hk Hj. unfold wait_for.
  rewrite (wait_loop_prefix time_ sleep_ condition timeout interval (time_ (c 0%nat)) c e k
             fuel ltac:(lia) Hj).
  destruct (fuel - k)%nat as [|f] eqn:Hf; [lia|].
  split; [|split; [|split; [|split]]].
  - intros Hc. cbn [wait_loop]. rewrite Hc. reflexivity.
  - intros Hc Ht. destruct timeout as [t|]; [|discriminate].
    exists t. split; [reflexivity|].
    cbn [wait_loop]. rewrite Hc. cbn [bind]. simpl in Ht. rewrite Ht. reflexivity.
  - intros Hc Ht Hi. cbn [wait_loop]. rewrite Hc. cbn [bind].
    assert (Hi' : (interval <? 0) = true) by (apply Z.ltb_lt; exact Hi).
    rewrite Hi'.
    destruct timeout as [t|]; simpl in Ht; [rewrite Ht|]; reflexivity.
  - intros err Hc. cbn [wait_loop]. rewrite Hc. reflexivity.
  - intros -> Hc fuel' s t. apply wait_loop_no_timeout, Hc.
Qed.

(** C9, as stated, fails: with a 100 second timeout and a 60 second
    interval, a condition still false when the timeout is reached but true
    by the next check (at 120 s) makes [wait_for] return normally. *)
Lemma C9_counterexample :
  let p := fun t => 110 <=? t in
  (forall t, 0 <= t <= 100 -> p t = false) /\
  wait_for clock_time clock_sleep (clock_condition p) (Some 100) 60 5 0 = Ok (tt, 120).
Proof.
  split; [|reflexivity].
  intros t Ht. apply Z.leb_gt. lia.
Qed.

(** The C9 hypotheses hold for a condition whose checks take 5 seconds
    each and that turns true at the third check (at 130 s, past a 100
    second timeout, with a 60 second interval): it returns at 135 s. *)
Lemma C9_witness :
  wait_for clock_time clock_sleep (timed_condition (fun t => 110 <=? t) 5)
    (Some 100) 60 5 (Z.of_nat 0 * 65) = Ok (tt, Z.of_nat 2 * 65 + 5).
Proof.
  destruct (C9_wait_for_amended clock_time clock_sleep
              (timed_condition (fun t => 110 <=? t) 5) (Some 100) 60
              (fun j => Z.of_nat j * 65) (fun j => Z.of_nat j * 65 + 5) 2 5)
    as [H _].
  - lia.
  - intros j Hj. destruct j as [|[|j]]; [| | lia];
      (split; [reflexivity | split; [reflexivity | split; [lia | reflexivity]]]).
  - apply H. reflexivity.
Defined.

(** ** More of the planner *)

(** Unrolls [plan_actions m] into the concrete action list for every
    state, flag combination and outcome of [_no_changes]. *)
Ltac plan_unroll m :=
  unfold plan_actions, plan_fuel, _state_graph, _route_init, _route_available,
    _route_switchover_completed;
  destruct (state m); destruct (BlueGreenDeployment.switchover (config m));
  destruct (BlueGreenDeployment.delete (config m)); simpl;
  try destruct (_no_changes m) as [[|]|]; simpl;
  try destruct (db_instance m); simpl;
  intros H; inv_ok.

Ltac in_cases :=
  let a := fresh "a" in let Ha := fresh "Ha" in
  intros a Ha; simpl in Ha; repeat destruct Ha as [<-|Ha]; try contradiction.

(** X1: [plan_actions] never returns a no-op action, so each planned action
    has an entry in the manager's handler table. *)
Theorem plan_actions_no_noop (m : BlueGreenDeploymentModel) acts :
  plan_actions m = Ok acts -> forall a, In a acts -> type a <> AT_NO_OP.
Proof. plan_unroll m; in_cases; discriminate. Qed.

(** X2: The planned actions move forward along the pipeline: their next states
    strictly increase, all beyond the model's state, so no state is
    entered twice. *)
Theorem plan_actions_forward (m : BlueGreenDeploymentModel) acts :
  plan_actions m = Ok acts ->
  Sorted (fun a b => (state_rank (next_state a) < state_rank (next_state b))%nat) acts /\
  forall a, In a acts -> (state_rank (state m) < state_rank (next_state a))%nat.
Proof.
  plan_unroll m;
    (split; [repeat constructor | in_cases; simpl; lia]).
Qed.

(** X3: Without [switchover] in the config no switchover is ever planned. *)
Theorem plan_actions_switchover_needs_flag (m : BlueGreenDeploymentModel) acts :
  BlueGreenDeployment.switchover (config m) = false ->
  plan_actions m = Ok acts -> forall a, In a acts -> type a <> AT_SWITCHOVER.
Proof.
  intros Hsw. revert Hsw. unfold plan_actions, plan_fuel, _state_graph, _route_init,
    _route_available, _route_switchover_completed.
  destruct (BlueGreenDeployment.switchover (config m)); [discriminate|]. intros _.
  destruct (state m); destruct (BlueGreenDeployment.delete (config m)); simpl;
    try destruct (db_instance m); simpl; intros H; inv_ok;
    in_cases; discriminate.
Qed.

(** X4: Without [delete] in the config neither the source instances nor a
    deployment without switchover are deleted; the deployment itself is
    still deleted exactly when the model's state is past the deletion of
    the source instances ([deleting_source_db_instances] or
    [source_db_instances_deleted]), whatever the flag says. *)
Theorem plan_actions_delete_flag (m : BlueGreenDeploymentModel) acts :
  BlueGreenDeployment.delete (config m) = false ->
  plan_actions m = Ok acts ->
  (forall a, In a acts ->
     type a <> AT_DELETE_SOURCE_DB_INSTANCE /\ type a <> AT_DELETE_WITHOUT_SWITCHOVER) /\
  ((exists a, In a acts /\ type a = AT_DELETE) <->
   state m = DELETING_SOURCE_DB_INSTANCES \/ state m = SOURCE_DB_INSTANCES_DELETED).
Proof.
  intros Hdel. revert Hdel. unfold plan_actions, plan_fuel, _state_graph, _route_init,
    _route_available, _route_switchover_completed.
  destruct (BlueGreenDeployment.delete (config m)); [discriminate|]. intros _.
  destruct (state m); destruct (BlueGreenDeployment.switchover (config m)); simpl;
    try destruct (db_instance m); simpl; intros H; inv_ok;
    (split; [in_cases; split; discriminate|]);
    split;
    solve [ intros [a [Ha Ht]]; simpl in Ha;
            repeat destruct Ha as [<-|Ha]; try contradiction; try discriminate; auto
          | intros [Hs|Hs]; discriminate
          | intros _; exists (SimpleAction AT_DELETE DELETING);
            split; [simpl; repeat (solve [left; reflexivity] || right) | reflexivity] ].
Qed.

(** ** More of model construction *)

Ltac frames :=
  repeat match goal with
  | Hx : _validate_db_instance_exist _ = Ok ?b |- _ =>
      pose proof (db_instance_exist_frame _ _ Hx); subst b
  | Hx : _validate_target_parameter_group _ = Ok ?b |- _ =>
      pose proof (target_parameter_group_frame _ _ Hx); subst b
  | Hx : _validate_deletion_protection _ = Ok ?b |- _ =>
      pose proof (deletion_protection_frame _ _ Hx); subst b
  | Hx : _validate_backup_retention_period _ = Ok ?b |- _ =>
      pose proof (backup_retention_period_frame _ _ Hx); subst b
  | Hx : _validate_version_upgrade _ = Ok ?b |- _ =>
      pose proof (version_upgrade_frame _ _ Hx); subst b
  | Hx : _validate_supported_engine_version _ = Ok ?b |- _ =>
      pose proof (supported_engine_version_frame _ _ Hx); subst b
  | Hx : _validate_source_parameter_group_status _ = Ok ?b |- _ =>
      pose proof (source_parameter_group_status_frame _ _ Hx); subst b
  end.

(** X5: What a constructed model guarantees: it is the input with only its
    state derived; the DB instance exists, has deletion protection off, a
    positive backup retention period and all its parameter groups in
    sync; the target engine version is a key of the valid upgrade targets;
    and a named target parameter group was found. *)
Theorem validate_model_guarantees (raw m : BlueGreenDeploymentModel) :
  validate_model raw = Ok m ->
  (exists s, m = set_state raw s) /\
  exists inst, db_instance raw = Some inst /\
    DeletionProtection inst = false /\
    0 < BackupRetentionPeriod inst /\
    (forall pg, In pg (DBParameterGroups inst) -> ParameterApplyStatus pg = "in-sync") /\
    (exists tv ut, _get_target_engine_version raw = Some tv /\
                   dict_get tv (valid_upgrade_targets raw) = Some ut) /\
    (forall t pg name, BlueGreenDeployment.target (config raw) = Some t ->
       BlueGreenDeploymentTarget.parameter_group t = Some pg ->
       ParameterGroup.name pg = Some name -> name <> "" ->
       target_db_parameter_group raw <> None).
Proof.
  intros H. pose proof (validate_model_init_state _ _ H) as Hi.
  unfold validate_model, validate_before_engine_version in H. split_binds. frames.
  rewrite Hi in *. inv_ok.
  apply init_state_ok in Hi as [s ->].
  split; [eauto|].
  unfold_validators. simpl in *.
  destruct (db_instance raw) as [inst|] eqn:Hdb; [|discriminate].
  exists inst. split; [reflexivity|].
  destruct (DeletionProtection inst); [discriminate|]. split; [reflexivity|].
  destruct (BackupRetentionPeriod inst <=? 0) eqn:Hb; [discriminate|].
  split; [apply Z.leb_gt; exact Hb|].
  split.
  { intros pg Hpg.
    destruct (String.eqb_spec (ParameterApplyStatus pg) "in-sync") as [E|E]; [exact E|].
    exfalso.
    assert (Hx : existsb (fun pg => negb (String.eqb (ParameterApplyStatus pg) "in-sync"))
                   (DBParameterGroups inst) = true).
    { apply existsb_exists. exists pg. split; [exact Hpg|].
      apply String.eqb_neq in E. rewrite E. reflexivity. }
    rewrite Hx in H. discriminate. }
  split.
  { rewrite get_target_engine_version_set_state in Ha.
    destruct (_get_target_engine_version raw) as [tv|] eqn:Htv; [|discriminate].
    destruct (dict_get tv (valid_upgrade_targets raw)) as [ut|] eqn:Hut; [|discriminate].
    exists tv, ut. split; [reflexivity | exact Hut]. }
  intros t pg name Ht Hpg Hn Hne Hnone.
  rewrite Ht, Hpg in Ha3. unfold truthy_str in Ha3. rewrite Hn, Hnone in Ha3.
  apply String.eqb_neq in Hne. rewrite Hne in Ha3. discriminate.
Qed.

Lemma init_state_known (raw : BlueGreenDeploymentModel) :
  (forall b, blue_green_deployment raw = Some b -> In (Status b) known_statuses) ->
  exists st, _init_state raw = Ok (set_state raw st).
Proof.
  intros Hk. unfold _init_state.
  destruct (blue_green_deployment raw) as [b|]; [|eauto].
  specialize (Hk b eq_refl). simpl in Hk.
  repeat destruct Hk as [E|Hk]; try contradiction; rewrite <- E; simpl; eauto.
  destruct (source_db_instances raw); [eauto|].
  match goal with |- context [if ?c then _ else _] => destruct c end; eauto.
Qed.

(** X6: The order in which construction reports errors: a deployment whose
    status [_init_state] does not know is reported first, whatever else is
    wrong; with a known status (or no deployment), a missing DB instance is
    reported before any other check. *)
Theorem validate_model_error_order (raw : BlueGreenDeploymentModel) :
  (forall b, blue_green_deployment raw = Some b -> ~ In (Status b) known_statuses ->
     validate_model raw = Err (ValueError_UnexpectedStatus (Status b))) /\
  ((forall b, blue_green_deployment raw = Some b -> In (Status b) known_statuses) ->
   db_instance raw = None ->
   validate_model raw = Err (ValueError_DBInstanceNotFound (db_instance_identifier raw))).
Proof.
  split.
  - intros b Hb Hn.
    assert (Hs : forall x, In x known_statuses -> String.eqb (Status b) x = false).
    { intros x Hx. apply String.eqb_neq. intros E. apply Hn. rewrite E. exact Hx. }
    unfold validate_model, validate_before_engine_version, _init_state. rewrite Hb.
    unfold known_statuses in Hs. simpl in Hs.
    rewrite (Hs "PROVISIONING"), (Hs "AVAILABLE"), (Hs "SWITCHOVER_IN_PROGRESS"),
      (Hs "SWITCHOVER_COMPLETED"), (Hs "DELETING") by tauto.
    reflexivity.
  - intros Hk Hdb. destruct (init_state_known raw Hk) as [st Hi].
    unfold validate_model, validate_before_engine_version. rewrite Hi. simpl.
    unfold _validate_db_instance_exist. simpl. rewrite Hdb. reflexivity.
Qed.

(** ** Python dicts *)

Lemma dict_get_app {T} (k : string) (d1 d2 : list (string * T)) :
  dict_get k (d1 ++ d2) = match dict_get k d1 with Some v => Some v | None => dict_get k d2 end.
Proof.
  induction d1 as [|[k' v'] d1 IH]; simpl; [reflexivity|].
  destruct (String.eqb k' k); [reflexivity | exact IH].
Qed.

Lemma dict_get_dict_set {T} (k k' : string) (v : T) (d : list (string * T)) :
  dict_get k (dict_set k' v d) = if String.eqb k' k then Some v else dict_get k d.
Proof.
  induction d as [|[k1 v1] d IH]; simpl; [reflexivity|].
  destruct (String.eqb k1 k') eqn:E1; simpl.
  - apply String.eqb_eq in E1; subst k1. destruct (String.eqb k' k); reflexivity.
  - destruct (String.eqb k1 k) eqn:E2; [|exact IH].
    apply String.eqb_eq in E2; subst k1.
    rewrite String.eqb_sym, E1. reflexivity.
Qed.

(** Folding [d[k] = v] over items: the last item of a key wins, and a key
    no item has keeps its value in the starting dict. *)
Lemma dict_get_fold_set {T} (k : string) (items d0 : list (string * T)) :
  dict_get k (fold_left (fun d kv => dict_set (fst kv) (snd kv) d) items d0) =
  match dict_get k (rev items) with Some v => Some v | None => dict_get k d0 end.
Proof.
  revert d0. induction items as [|[k' v'] items IH]; intros d0; simpl; [reflexivity|].
  rewrite IH, dict_get_app, dict_get_dict_set. simpl.
  destruct (dict_get k (rev items)); [reflexivity|].
  destruct (String.eqb k' k); reflexivity.
Qed.

Lemma dict_get_union {T} (k : string) (d1 d2 : list (string * T)) :
  dict_get k (dict_union d1 d2) =
  match dict_get k (rev d2) with Some v => Some v | None => dict_get k d1 end.
Proof. apply dict_get_fold_set. Qed.

Lemma dict_get_from_items {T} (k : string) (items : list (string * T)) :
  dict_get k (dict_from_items items) = dict_get k (rev items).
Proof.
  unfold dict_from_items. rewrite dict_get_fold_set.
  destruct (dict_get k (rev items)); reflexivity.
Qed.

Lemma dict_get_keyed {A} (key : A -> string) (k : string) (l : list A) :
  dict_get k (map (fun x => (key x, x)) l) = find (fun x => String.eqb (key x) k) l.
Proof.
  induction l as [|x l IH]; simpl; [reflexivity|].
  destruct (String.eqb (key x) k); [reflexivity | exact IH].
Qed.

(** A filter on the keys keeps a key's lookup or removes it. *)
Lemma dict_get_filter_keys {T} (q : string -> bool) (k : string) (d : list (string * T)) :
  dict_get k (filter (fun kv => q (fst kv)) d) = if q k then dict_get k d else None.
Proof.
  induction d as [|[k' v'] d IH]; simpl; [destruct (q k); reflexivity|].
  destruct (String.eqb k' k) eqn:E.
  - apply String.eqb_eq in E; subst k'.
    destruct (q k); simpl; [rewrite String.eqb_refl; reflexivity | exact IH].
  - destruct (q k'); simpl; [rewrite E|]; exact IH.
Qed.

Lemma dict_get_pop {T} (k k' : string) (d : list (string * T)) :
  dict_get k (dict_pop k' d) = if String.eqb k k' then None else dict_get k d.
Proof.
  unfold dict_pop.
  rewrite (dict_get_filter_keys (fun x => negb (String.eqb x k'))).
  destruct (String.eqb k k'); reflexivity.
Qed.

Lemma dict_get_not_in {T} (k : string) (d : list (string * T)) :
  ~ In k (map fst d) -> dict_get k d = None.
Proof.
  induction d as [|[k' v'] d IH]; simpl; intros Hn; [reflexivity|].
  destruct (String.eqb k' k) eqn:E.
  - apply String.eqb_eq in E. exfalso. apply Hn. left. exact E.
  - apply IH. intros H. apply Hn. right. exact H.
Qed.

Lemma dict_set_keys {T} (k x : string) (v : T) (d : list (string * T)) :
  In x (map fst (dict_set k v d)) -> x = k \/ In x (map fst d).
Proof.
  induction d as [|[k' v'] d IH]; simpl; [intros [H|[]]; left; symmetry; exact H|].
  destruct (String.eqb k' k); simpl; [tauto|].
  intros [H|H]; [tauto|]. destruct (IH H); tauto.
Qed.

Lemma dict_set_nodup {T} (k : string) (v : T) (d : list (string * T)) :
  NoDup (map fst d) -> NoDup (map fst (dict_set k v d)).
Proof.
  induction d as [|[k' v'] d IH]; simpl; intros Hd.
  - constructor; [simpl; tauto | constructor].
  - inversion Hd as [|? ? Hn Hd']; subst.
    destruct (String.eqb k' k) eqn:E; simpl.
    + constructor; assumption.
    + constructor; [|apply IH; exact Hd'].
      intros Hin. destruct (dict_set_keys _ _ _ _ Hin) as [->|Hin'].
      * rewrite String.eqb_refl in E. discriminate.
      * contradiction.
Qed.

Lemma dict_from_items_nodup {T} (items : list (string * T)) :
  NoDup (map fst (dict_from_items items)).
Proof.
  unfold dict_from_items.
  assert (H : forall d, NoDup (map fst d) ->
    NoDup (map fst (fold_left (fun d kv => dict_set (fst kv) (snd kv) d) items d))).
  { induction items as [|kv items IH]; simpl; intros d Hd; [exact Hd|].
    apply IH, dict_set_nodup, Hd. }
  apply H. constructor.
Qed.

(** With one entry per key, the lookup does not depend on the order. *)
Lemma dict_get_rev_nodup {T} (k : string) (d : list (string * T)) :
  NoDup (map fst d) -> dict_get k (rev d) = dict_get k d.
Proof.
  induction d as [|[k' v'] d IH]; simpl; intros Hd; [reflexivity|].
  inversion Hd as [|? ? Hn Hd']; subst.
  rewrite dict_get_app, IH by exact Hd'. simpl.
  destruct (String.eqb k' k) eqn:E.
  - apply String.eqb_eq in E; subst k'. rewrite dict_get_not_in by exact Hn. reflexivity.
  - destruct (dict_get k d); reflexivity.
Qed.

(** ** hooks/utils/aws_api.py *)

(** X7: the candidates of [get_blue_green_deployment_valid_upgrade_targets]
    map a version to the last upgrade target RDS lists for it in the first
    [DBEngineVersions] entry; the current version, when RDS does not list
    it, maps to itself as a non-major upgrade. *)
Theorem candidate_upgrade_targets_lookup describe engine version (k : string) :
  dict_get k (AWSApi.candidate_upgrade_targets describe engine version) =
  match match describe {| AWSApi.req_Engine := engine; AWSApi.req_EngineVersion := Some version;
                          AWSApi.req_IncludeAll := Some true; AWSApi.req_Filters := None |} with
        | Some (first :: _) =>
            find (fun t => String.eqb (ut_EngineVersion t) k)
                 (rev (match AWSApi.ValidUpgradeTarget first with Some l => l | None => [] end))
        | _ => None
        end with
  | Some t => Some t
  | None =>
      if String.eqb version k
      then Some {| ut_EngineVersion := version; IsMajorVersionUpgrade := false |}
      else None
  end.
Proof.
  unfold AWSApi.candidate_upgrade_targets. rewrite dict_get_union.
  unfold AWSApi.get_rds_valid_upgrade_targets.
  destruct (describe _) as [[|first rest]|]; simpl; try reflexivity.
  rewrite dict_get_rev_nodup by apply dict_from_items_nodup.
  rewrite dict_get_from_items, <- map_rev, dict_get_keyed. reflexivity.
Qed.

(** X8: [get_blue_green_deployment_valid_upgrade_targets] raises KeyError
    when the filtered [describe_db_engine_versions] answer has no
    [DBEngineVersions]; otherwise it keeps exactly the candidates whose
    version that answer lists, with their candidate upgrade target. *)
Theorem bgd_valid_upgrade_targets_lookup describe engine version :
  let candidates := AWSApi.candidate_upgrade_targets describe engine version in
  match describe (AWSApi.engine_version_filter_request engine candidates) with
  | None =>
      AWSApi.get_blue_green_deployment_valid_upgrade_targets describe engine version =
      Err (KeyError "DBEngineVersions")
  | Some items =>
      exists r, AWSApi.get_blue_green_deployment_valid_upgrade_targets describe engine version = Ok r /\
      forall k, dict_get k r =
        if existsb (String.eqb k) (map AWSApi.dev_EngineVersion items)
        then dict_get k candidates else None
  end.
Proof.
  intros candidates. unfold AWSApi.get_blue_green_deployment_valid_upgrade_targets.
  fold candidates.
  destruct (describe _) as [[|it its]|]; [| |reflexivity].
  - exists []. split; [reflexivity|]. intros k. reflexivity.
  - eexists. split; [reflexivity|]. intros k.
    exact (dict_get_filter_keys
             (fun x => existsb (String.eqb x) (map AWSApi.dev_EngineVersion (it :: its))) k candidates).
Qed.

(** [db_parameters_pages] raises KeyError exactly when a page lacks
    [Parameters], and otherwise lists the items of each page. *)
Lemma db_parameters_pages_spec pages :
  (In None pages -> AWSApi.db_parameters_pages pages = Err (KeyError "Parameters")) /\
  (~ In None pages -> AWSApi.db_parameters_pages pages =
     Ok (map (fun page => match page with Some (Some l) => l | _ => [] end) pages)).
Proof.
  induction pages as [|[page|] rest [IH1 IH2]]; simpl.
  - split; [intros []|reflexivity].
  - split.
    + intros [H|H]; [discriminate|]. rewrite (IH1 H). reflexivity.
    + intros H. rewrite IH2 by tauto. destruct page; reflexivity.
  - split; [reflexivity|]. intros H. exfalso. apply H. left. reflexivity.
Qed.

(** X9: [get_db_parameters] raises KeyError when a page has no
    [Parameters] key; otherwise its dict, like that of
    [get_engine_default_parameters], maps a name to the last parameter of
    that name across all pages, where a page whose [Parameters] is [None]
    (or, for the engine defaults, a page without [EngineDefaults] or
    without [Parameters]) contributes nothing. *)
Theorem parameters_lookup_last :
  (forall paginate group names,
     let pages := paginate {| AWSApi.req_DBParameterGroupName := group;
                              AWSApi.req_parameter_filters := AWSApi.parameter_name_filters names |} in
     (In None pages -> AWSApi.get_db_parameters paginate group names = Err (KeyError "Parameters")) /\
     (~ In None pages -> exists d, AWSApi.get_db_parameters paginate group names = Ok d /\
        forall n, dict_get n d =
          find (fun item => String.eqb (AWSApi.ParameterName item) n)
            (rev (concat (map (fun page => match page with Some (Some l) => l | _ => [] end)
                   pages))))) /\
  (forall paginate family names n,
     dict_get n (AWSApi.get_engine_default_parameters paginate family names) =
     find (fun item => String.eqb (AWSApi.ParameterName item) n)
       (rev (concat (map (fun page => match page with Some (Some l) => l | _ => [] end)
          (paginate {| AWSApi.req_DBParameterGroupFamily := family;
                       AWSApi.req_default_filters := AWSApi.parameter_name_filters names |}))))).
Proof.
  split.
  - intros paginate group names pages.
    destruct (db_parameters_pages_spec pages) as [H1 H2].
    unfold AWSApi.get_db_parameters. fold pages.
    split.
    + intros H. rewrite (H1 H). reflexivity.
    + intros H. rewrite (H2 H). cbn [bind]. eexists. split; [reflexivity|].
      intros n. unfold AWSApi.parameters_by_name.
      rewrite dict_get_from_items, <- map_rev, dict_get_keyed. reflexivity.
  - intros. unfold AWSApi.get_engine_default_parameters, AWSApi.parameters_by_name.
    rewrite dict_get_from_items, <- map_rev, dict_get_keyed. reflexivity.
Qed.

(** X10: [get_db_instance] gives None when the instance is not found or the
    answer lists none; otherwise the first instance listed, without its
    [ReplicaMode] key and with every other key as it was. *)
Theorem get_db_instance_first_without_replica_mode {V : Type}
    (describe : string -> AWSApi.DescribeDBInstancesOutcome V) (identifier : string) :
  match describe identifier with
  | AWSApi.DBInstances (first :: _) =>
      exists r, AWSApi.get_db_instance describe identifier = Some r /\
      forall k, dict_get k r = if String.eqb k "ReplicaMode" then None else dict_get k first
  | _ => AWSApi.get_db_instance describe identifier = None
  end.
Proof.
  unfold AWSApi.get_db_instance.
  destruct (describe identifier) as [[|first rest]|]; try reflexivity.
  eexists. split; [reflexivity|]. intros k. apply dict_get_pop.
Qed.

(** X11: a run is a dry run exactly when [DRY_RUN] is unset or is the string
    "True"; any other value, "true" or "1" included, makes it a real run. *)
Theorem is_dry_run_iff (getenv : string -> option string) :
  is_dry_run getenv = true <-> getenv "DRY_RUN" = None \/ getenv "DRY_RUN" = Some "True".
Proof.
  unfold is_dry_run. destruct (getenv "DRY_RUN") as [v|].
  - rewrite String.eqb_eq. split.
    + intros ->. right. reflexivity.
    + intros [H|H]; [discriminate | injection H; tauto].
  - split; [left; reflexivity | reflexivity].
Qed.

(** X12: how [main] of pre_run.py ends, from the state [run] returns: an
    exception exits with EXIT_ERROR, NOT_ENABLED and NO_OP with EXIT_OK,
    INIT with EXIT_SKIP; every other state reaches the member
    [State.REPLICA_SOURCE_ENABLED], which the enum lacks, and raises
    AttributeError. [mark_rerun] never runs. *)
Theorem pre_run_main_outcome {W : Type} (gw : CloudGateway W) inp getenv fuel s :
  pre_run_main gw inp getenv fuel s =
  match run gw inp (is_dry_run getenv) fuel s with
  | Err _ => SysExit EXIT_ERROR false
  | Ok (NOT_ENABLED, _) | Ok (NO_OP, _) => SysExit EXIT_OK false
  | Ok (INIT, _) => SysExit EXIT_SKIP false
  | Ok _ => AttributeError "REPLICA_SOURCE_ENABLED"
  end.
Proof.
  unfold pre_run_main.
  destruct (run gw inp (is_dry_run getenv) fuel s) as [[st s']|e]; [|reflexivity].
  destruct st; reflexivity.
Qed.

(** ** hooks/utils/blue_green_deployment_manager.py *)

(** the identifiers [_fetch_blue_green_deployment_member_instances] looks
    up: the non-empty [key] entries of the switchover details, in order *)
Lemma fetch_members_exact {W : Type} (gw : CloudGateway W) key ds (s : MState W) :
  let ids := filter_map (fun d => truthy_str (member_of key d)) ds in
  fetch_members gw key ds s =
  Ok (filter_map (fun i => gw_get_db_instance gw i (world s)) ids,
      {| world := world s; calls := (calls s ++ map Call_get_db_instance ids)%list;
         model := model s |}).
Proof.
  revert s. induction ds as [|d ds IH]; intros s; simpl.
  - rewrite app_nil_r. destruct s; reflexivity.
  - destruct (truthy_str (member_of key d)) as [i|]; [|apply IH].
    unfold mbind, get_db_instance, read. simpl.
    rewrite IH. simpl. rewrite <- app_assoc. simpl.
    destruct (gw_get_db_instance gw i (world s)); reflexivity.
Qed.

(** X13: [_fetch_blue_green_deployment_member_instances] makes one
    [get_db_instance] call per switchover detail whose [key] member is set
    and non-empty, in order, and nothing else; it returns the instances
    found, in that order, dropping those not found. Without a deployment it
    makes no call and returns []. *)
Theorem fetch_member_instances_calls {W : Type} (gw : CloudGateway W) b key (s : MState W) :
  let ids := match b with
             | Some bgd => filter_map (fun d => truthy_str (member_of key d)) (SwitchoverDetails bgd)
             | None => []
             end in
  _fetch_blue_green_deployment_member_instances gw b key s =
  Ok (filter_map (fun i => gw_get_db_instance gw i (world s)) ids,
      {| world := world s; calls := (calls s ++ map Call_get_db_instance ids)%list;
         model := model s |}).
Proof.
  unfold _fetch_blue_green_deployment_member_instances.
  destruct b as [bgd|]; [apply fetch_members_exact|].
  simpl. rewrite app_nil_r. destruct s; reflexivity.
Qed.

Lemma delete_all_exact {W : Type} (gw : CloudGateway W) insts (s : MState W) :
  delete_all gw insts s =
  Ok (tt, {| world := fold_left (fun w i => gw_delete_db_instance gw (DBInstanceIdentifier i) w)
                                insts (world s);
             calls := (calls s ++ map (fun i => Call_delete_db_instance (DBInstanceIdentifier i)) insts)%list;
             model := model s |}).
Proof.
  revert s. induction insts as [|i insts IH]; intros s; simpl.
  - rewrite app_nil_r. destruct s; reflexivity.
  - unfold mbind, mutate. simpl. rewrite IH. simpl. rewrite <- app_assoc. reflexivity.
Qed.

(** X14: [_handle_delete_source_db_instance] re-reads the source members of
    the deployment the model holds, stores them in the model, then deletes
    each of them, in order, with one [delete_db_instance] call each; the
    cloud sees exactly those deletions. Without a model it fails its
    assertion. *)
Theorem handle_delete_source_db_instance_exact {W : Type} (gw : CloudGateway W) fuel
    (action : BaseAction) (s : MState W) :
  type action = AT_DELETE_SOURCE_DB_INSTANCE ->
  match model s with
  | None => handle gw fuel action s = Err AssertionError
  | Some m =>
      let ids := match blue_green_deployment m with
                 | Some bgd => filter_map (fun d => truthy_str (SourceMember d)) (SwitchoverDetails bgd)
                 | None => []
                 end in
      let srcs := filter_map (fun i => gw_get_db_instance gw i (world s)) ids in
      handle gw fuel action s =
      Ok (tt, {| world := fold_left (fun w i => gw_delete_db_instance gw (DBInstanceIdentifier i) w)
                                    srcs (world s);
                 calls := (calls s ++ map Call_get_db_instance ids
                           ++ map (fun i => Call_delete_db_instance (DBInstanceIdentifier i)) srcs)%list;
                 model := Some (set_source_db_instances m srcs) |})
  end.
Proof.
  intros Ht. unfold handle. rewrite Ht.
  unfold mbind, get_model, _fetch_source_db_instances,
    _fetch_blue_green_deployment_member_instances, put_model.
  destruct (model s) as [m|] eqn:Hm; [|reflexivity].
  cbn [bind].
  destruct (blue_green_deployment m) as [bgd|].
  - rewrite (fetch_members_exact gw SourceMemberKey (SwitchoverDetails bgd) s).
    cbn [bind]. rewrite delete_all_exact. simpl. rewrite <- app_assoc. reflexivity.
  - unfold ret. cbn [bind].
    rewrite delete_all_exact. simpl. rewrite !app_nil_r. reflexivity.
Qed.

(** X15: with a model holding a deployment, [_handle_switchover],
    [_handle_delete] and [_handle_delete_without_switchover] each make one
    call, on the deployment's identifier, and change nothing else: a
    switchover with no [SwitchoverTimeout], a deletion with no
    [DeleteTarget], and a deletion with [DeleteTarget=True]. *)
Theorem bgd_mutation_handlers_exact {W : Type} (gw : CloudGateway W) fuel
    (action : BaseAction) (s : MState W) m b :
  model s = Some m -> blue_green_deployment m = Some b ->
  let identifier := BlueGreenDeploymentIdentifier b in
  (type action = AT_SWITCHOVER ->
     handle gw fuel action s =
     Ok (tt, {| world := gw_switchover_blue_green_deployment gw identifier (world s);
                calls := (calls s ++ [Call_switchover_blue_green_deployment identifier])%list;
                model := model s |}) /\
     AWSApi.switchover_blue_green_deployment_kwargs identifier None =
     [("BlueGreenDeploymentIdentifier", AWSApi.KStr identifier)]) /\
  (type action = AT_DELETE ->
     handle gw fuel action s =
     Ok (tt, {| world := gw_delete_blue_green_deployment gw identifier None (world s);
                calls := (calls s ++ [Call_delete_blue_green_deployment identifier None])%list;
                model := model s |}) /\
     AWSApi.delete_blue_green_deployment_kwargs identifier None =
     [("BlueGreenDeploymentIdentifier", AWSApi.KStr identifier)]) /\
  (type action = AT_DELETE_WITHOUT_SWITCHOVER ->
     handle gw fuel action s =
     Ok (tt, {| world := gw_delete_blue_green_deployment gw identifier (Some true) (world s);
                calls := (calls s ++ [Call_delete_blue_green_deployment identifier (Some true)])%list;
                model := model s |}) /\
     AWSApi.delete_blue_green_deployment_kwargs identifier (Some true) =
     [("BlueGreenDeploymentIdentifier", AWSApi.KStr identifier);
      ("DeleteTarget", AWSApi.KBool true)]).
Proof.
  intros Hm Hb identifier.
  split; [|split]; intros Ht; (split; [|reflexivity]);
    unfold handle; rewrite Ht;
    unfold deployment_identifier, get_model, mutate, mbind; rewrite Hm; cbn [bind];
    rewrite Hb; unfold ret; cbn [bind]; rewrite ?Hm; reflexivity.
Qed.

(** X16: the handlers that read [self.model] fail their assertion, before
    any call, when there is no model; the switchover and deletion handlers
    also when the model holds no deployment. *)
Theorem handlers_assert_model {W : Type} (gw : CloudGateway W) fuel
    (action : BaseAction) (s : MState W) :
  (model s = None ->
   In (type action) [AT_SWITCHOVER; AT_DELETE_SOURCE_DB_INSTANCE; AT_DELETE;
                     AT_DELETE_WITHOUT_SWITCHOVER] ->
   handle gw fuel action s = Err AssertionError) /\
  (forall m, model s = Some m -> blue_green_deployment m = None ->
   In (type action) [AT_SWITCHOVER; AT_DELETE; AT_DELETE_WITHOUT_SWITCHOVER] ->
   handle gw fuel action s = Err AssertionError).
Proof.
  split.
  - intros Hm Ht. unfold handle.
    simpl in Ht; repeat destruct Ht as [Ht|Ht]; try contradiction; rewrite <- Ht;
      unfold deployment_identifier, get_model, mbind; rewrite Hm; reflexivity.
  - intros m Hm Hb Ht. unfold handle.
    simpl in Ht; repeat destruct Ht as [Ht|Ht]; try contradiction; rewrite <- Ht;
      unfold deployment_identifier, get_model, mbind; rewrite Hm; cbn [bind];
      rewrite Hb; reflexivity.
Qed.

Lemma sleeps_and_reads_ret {W A : Type} (gw : CloudGateway W) i (a : A) :
  sleeps_and_reads gw i (ret a).
Proof.
  intros s s' a' H. injection H as <- <-. split; [exists 0%nat; reflexivity|].
  exists []. rewrite app_nil_r. split; reflexivity.
Qed.

Lemma sleeps_and_reads_read {W A : Type} (gw : CloudGateway W) i c (f : W -> A) :
  is_mutating c = false -> sleeps_and_reads gw i (read c f).
Proof.
  intros Hc s s' a H. injection H as <- <-. split; [exists 0%nat; reflexivity|].
  exists [c]. simpl. rewrite Hc. split; reflexivity.
Qed.

Lemma sleeps_and_reads_get_model {W : Type} (gw : CloudGateway W) i :
  sleeps_and_reads gw i get_model.
Proof.
  intros s s' a H. unfold get_model in H. destruct (model s); [|discriminate].
  injection H as <- <-. split; [exists 0%nat; reflexivity|].
  exists []. rewrite app_nil_r. split; reflexivity.
Qed.

Lemma sleeps_and_reads_put_model {W : Type} (gw : CloudGateway W) i m :
  sleeps_and_reads gw i (put_model m).
Proof.
  intros s s' a H. injection H as <- <-. split; [exists 0%nat; reflexivity|].
  exists []. rewrite app_nil_r. split; reflexivity.
Qed.

Lemma nat_iter_add {A} (f : A -> A) n k x :
  Nat.iter (n + k) f x = Nat.iter n f (Nat.iter k f x).
Proof. induction n as [|n IH]; simpl; [reflexivity | rewrite IH; reflexivity]. Qed.

Lemma sleeps_and_reads_bind {W A B : Type} (gw : CloudGateway W) i (x : M A) (f : A -> M B) :
  sleeps_and_reads gw i x -> (forall a, sleeps_and_reads gw i (f a)) ->
  sleeps_and_reads gw i (mbind x f).
Proof.
  intros Hx Hf s s' b H. unfold mbind in H.
  destruct (x s) as [[a s1]|e] eqn:E; [|discriminate]. simpl in H.
  destruct (Hx _ _ _ E) as [[n1 Hw1] [new1 [Hc1 Hm1]]].
  destruct (Hf a _ _ _ H) as [[n2 Hw2] [new2 [Hc2 Hm2]]].
  split.
  - exists (n2 + n1)%nat. rewrite Hw2, Hw1, nat_iter_add. reflexivity.
  - exists (new1 ++ new2)%list. rewrite Hc2, Hc1, app_assoc, forallb_app, Hm1, Hm2.
    split; reflexivity.
Qed.

Lemma sleeps_and_reads_fetch_members {W : Type} (gw : CloudGateway W) i key ds :
  sleeps_and_reads gw i (fetch_members gw key ds).
Proof.
  intros s s' a H. rewrite fetch_members_exact in H. injection H as <- <-.
  split; [exists 0%nat; reflexivity|].
  eexists. split; [reflexivity|].
  apply forallb_forall. intros c Hc. apply in_map_iff in Hc.
  destruct Hc as [i' [<- _]]. reflexivity.
Qed.

Lemma sleeps_and_reads_fetch_member_instances {W : Type} (gw : CloudGateway W) i b key :
  sleeps_and_reads gw i (_fetch_blue_green_deployment_member_instances gw b key).
Proof.
  unfold _fetch_blue_green_deployment_member_instances.
  destruct b; [apply sleeps_and_reads_fetch_members | apply sleeps_and_reads_ret].
Qed.

Lemma sleeps_and_reads_wait_for {W : Type} (gw : CloudGateway W) fuel (condition : M bool) :
  sleeps_and_reads gw default_interval condition ->
  sleeps_and_reads gw default_interval (wait_for_m gw fuel condition).
Proof.
  intros Hc s0. unfold wait_for_m, wait_for.
  generalize (gw_time gw (world s0)) as start.
  assert (Hl : forall start n s s' u,
    wait_loop (fun s => gw_time gw (world s))
      (fun i s => {| world := gw_sleep gw i (world s); calls := calls s; model := model s |})
      condition None default_interval start n s = Ok (u, s') ->
    (exists k, world s' = Nat.iter k (gw_sleep gw default_interval) (world s)) /\
    exists new, calls s' = (calls s ++ new)%list /\
                forallb (fun c => negb (is_mutating c)) new = true).
  { intros start n. induction n as [|n IH]; intros s s' u H; [discriminate|].
    cbn [wait_loop] in H. destruct (condition s) as [[met s1]|e] eqn:E; [|discriminate].
    cbn [bind] in H.
    destruct (Hc _ _ _ E) as [[k1 Hw1] [new1 [Hc1 Hm1]]].
    destruct met.
    - injection H as _ <-. split; [exists k1; exact Hw1 | exists new1; auto].
    - destruct (IH _ _ _ H) as [[k2 Hw2] [new2 [Hc2 Hm2]]]. simpl in Hw2, Hc2.
      split.
      + exists (k2 + S k1)%nat. rewrite Hw2, Hw1, nat_iter_add. reflexivity.
      + exists (new1 ++ new2)%list. rewrite Hc2, Hc1, <- app_assoc, forallb_app, Hm1, Hm2.
        split; reflexivity. }
  intros start s' a H. exact (Hl start fuel s0 s' a H).
Qed.

(** X17: the four wait handlers change the cloud only by sleeping 60 seconds
    between checks and make only non-mutating calls. *)
Theorem wait_handlers_sleep_and_read {W : Type} (gw : CloudGateway W) fuel
    (action : BaseAction) (s s' : MState W) :
  In (type action) [AT_WAIT_FOR_AVAILABLE; AT_WAIT_FOR_SWITCHOVER_COMPLETED;
                    AT_WAIT_FOR_SOURCE_DB_INSTANCES_DELETED; AT_WAIT_FOR_DELETED] ->
  handle gw fuel action s = Ok (tt, s') ->
  (exists n, world s' = Nat.iter n (gw_sleep gw 60) (world s)) /\
  exists new, calls s' = (calls s ++ new)%list /\
              forallb (fun c => negb (is_mutating c)) new = true.
Proof.
  intros Ht. revert s s'. change 60 with default_interval.
  assert (Hh : sleeps_and_reads gw default_interval (handle gw fuel action)).
  { unfold handle.
    simpl in Ht; repeat destruct Ht as [Ht|Ht]; try contradiction; rewrite <- Ht;
      apply sleeps_and_reads_wait_for;
      unfold _wait_for_available_condition, _wait_for_switchover_completed_condition,
        _wait_for_source_db_instances_deleted_condition,
        _wait_for_delete_condition_condition, _fetch_target_db_instances,
        _fetch_source_db_instances, get_blue_green_deployment;
      repeat (apply sleeps_and_reads_bind; [first [apply sleeps_and_reads_get_model
                                                 | apply sleeps_and_reads_put_model
                                                 | apply sleeps_and_reads_read; reflexivity
                                                 | apply sleeps_and_reads_fetch_member_instances]|];
              intros ?);
      apply sleeps_and_reads_ret. }
  intros s s' H. exact (Hh s s' tt H).
Qed.

Lemma last_cons_default {A} (x d : A) (l : list A) : last (x :: l) d = last l x.
Proof.
  revert x d. induction l as [|y l IH]; intros x d; [reflexivity|].
  change (last (x :: y :: l) d) with (last (y :: l) d). rewrite (IH y d), (IH y x). reflexivity.
Qed.

(** Each handled action of a real run leaves [self.model] holding its
    [next_state]. *)
Lemma run_actions_real_state {W : Type} (gw : CloudGateway W) fuel acts :
  forall (s s' : MState W) m, model s = Some m ->
  run_actions gw false fuel acts s = Ok (tt, s') ->
  exists m', model s' = Some m' /\ state m' = last (map next_state acts) (state m).
Proof.
  induction acts as [|a rest IH]; intros s s' m Hm H.
  - injection H as <-. exists m. split; [exact Hm | reflexivity].
  - cbn [run_actions] in H. unfold mbind at 1 in H.
    unfold mbind at 1 in H.
    destruct (handle gw fuel a s) as [[u s1]|e]; [|discriminate]. cbn [bind] in H.
    unfold mbind, get_model in H.
    destruct (model s1) as [m1|]; [|discriminate]. cbn [bind] in H.
    unfold put_model in H. cbn [bind] in H.
    pose proof (fun Hm1 => IH _ _ (set_state m1 (next_state a)) Hm1 H) as IH'.
    destruct (IH' eq_refl) as [m' [Hm' Hs']].
    exists m'. split; [exact Hm'|]. rewrite Hs', set_state_state.
    change (map next_state (a :: rest)) with (next_state a :: map next_state rest).
    rewrite last_cons_default. reflexivity.
Qed.

(** X18: a successful real (not dry) [run] of an enabled deployment returns
    the [next_state] of the last action planned for the model it built,
    or that model's own state when nothing was planned. *)
Theorem run_real_returns_planned_state {W : Type} (gw : CloudGateway W) inp fuel
    (s s' : MState W) st :
  run gw inp false fuel s = Ok (st, s') ->
  st = NOT_ENABLED \/
  exists cfg m acts s1,
    data_blue_green_deployment inp = Some cfg /\ BlueGreenDeployment.enabled cfg = true /\
    _build_model gw inp cfg s = Ok (m, s1) /\ plan_actions m = Ok acts /\
    st = last (map next_state acts) (state m).
Proof.
  intros H. unfold run in H.
  destruct (data_blue_green_deployment inp) as [cfg|] eqn:Hc;
    [|injection H as <- _; left; reflexivity].
  destruct (BlueGreenDeployment.enabled cfg) eqn:He;
    [|injection H as <- _; left; reflexivity].
  right. simpl in H. unfold mbind at 1 in H.
  destruct (_build_model gw inp cfg s) as [[m s1]|e] eqn:Hb; [|discriminate].
  cbn [bind] in H. unfold mbind at 1, put_model in H. cbn [bind] in H.
  unfold mbind at 1, lift in H.
  destruct (plan_actions m) as [acts|e] eqn:Hp; [|discriminate]. cbn [bind] in H.
  unfold mbind at 1 in H.
  destruct (run_actions gw false fuel acts _) as [[u s2]|e] eqn:Hr; [|discriminate].
  cbn [bind] in H. destruct u.
  destruct (run_actions_real_state gw fuel acts
              {| world := world s1; calls := calls s1; model := Some m |} _ m eq_refl Hr)
    as [m' [Hm' Hs']].
  unfold mbind, get_model in H. rewrite Hm' in H. cbn [bind] in H.
  injection H as <- _.
  exists cfg, m, acts, s1. repeat split; assumption.
Qed.

(** ** Witnesses *)

Lemma plan_actions_no_noop_witness :
  plan_actions (ex_upgrade_model true true) = Ok (ex_plan (ex_upgrade_model true true)) /\
  forall a, In a (ex_plan (ex_upgrade_model true true)) -> type a <> AT_NO_OP.
Proof.
  assert (E : plan_actions (ex_upgrade_model true true) = Ok (ex_plan (ex_upgrade_model true true)))
    by (vm_compute; reflexivity).
  split; [exact E | exact (plan_actions_no_noop _ _ E)].
Defined.

Lemma plan_actions_forward_witness :
  let m := ex_upgrade_model true true in
  Sorted (fun a b => (state_rank (next_state a) < state_rank (next_state b))%nat) (ex_plan m) /\
  forall a, In a (ex_plan m) -> (state_rank (state m) < state_rank (next_state a))%nat.
Proof.
  intros m. apply (plan_actions_forward m (ex_plan m)). vm_compute. reflexivity.
Defined.

Lemma plan_actions_switchover_needs_flag_witness :
  let m := ex_upgrade_model false false in
  ex_plan m <> [] /\ forall a, In a (ex_plan m) -> type a <> AT_SWITCHOVER.
Proof.
  intros m. split; [vm_compute; discriminate|].
  apply (plan_actions_switchover_needs_flag m (ex_plan m)); [reflexivity | vm_compute; reflexivity].
Defined.

Lemma plan_actions_delete_flag_witness :
  let m := ex_upgrade_model true false in
  (forall a, In a (ex_plan m) ->
     type a <> AT_DELETE_SOURCE_DB_INSTANCE /\ type a <> AT_DELETE_WITHOUT_SWITCHOVER) /\
  ((exists a, In a (ex_plan m) /\ type a = AT_DELETE) <->
   state m = DELETING_SOURCE_DB_INSTANCES \/ state m = SOURCE_DB_INSTANCES_DELETED).
Proof.
  intros m. apply (plan_actions_delete_flag m (ex_plan m)); [reflexivity | vm_compute; reflexivity].
Defined.

Lemma validate_model_guarantees_witness :
  let raw := ex_upgrade_model true true in
  validate_model raw = Ok (set_state raw INIT) /\
  exists inst, db_instance raw = Some inst /\
    DeletionProtection inst = false /\ 0 < BackupRetentionPeriod inst /\
    (forall pg, In pg (DBParameterGroups inst) -> ParameterApplyStatus pg = "in-sync") /\
    (exists tv ut, _get_target_engine_version raw = Some tv /\
                   dict_get tv (valid_upgrade_targets raw) = Some ut) /\
    (forall t pg name, BlueGreenDeployment.target (config raw) = Some t ->
       BlueGreenDeploymentTarget.parameter_group t = Some pg ->
       ParameterGroup.name pg = Some name -> name <> "" ->
       target_db_parameter_group raw <> None).
Proof.
  intros raw.
  assert (E : validate_model raw = Ok (set_state raw INIT)) by (vm_compute; reflexivity).
  split; [exact E|]. exact (proj2 (validate_model_guarantees raw _ E)).
Defined.

Lemma validate_model_error_order_witness :
  validate_model (ex_raw_model (ex_config true true None)
                   (ex_db_instance "postgres" "15.7" [ex_pg_in_sync])
                   (Some (ex_bgd "FAILED")) [] [] []) =
    Err (ValueError_UnexpectedStatus "FAILED") /\
  validate_model (ex_model_without_instance (Some (ex_bgd "PROVISIONING"))) =
    Err (ValueError_DBInstanceNotFound "test-rds").
Proof.
  split.
  - apply (proj1 (validate_model_error_order
                   (ex_raw_model (ex_config true true None)
                      (ex_db_instance "postgres" "15.7" [ex_pg_in_sync])
                      (Some (ex_bgd "FAILED")) [] [] [])) (ex_bgd "FAILED") eq_refl).
    vm_compute. intuition discriminate.
  - apply (proj2 (validate_model_error_order
                   (ex_model_without_instance (Some (ex_bgd "PROVISIONING"))))); [|reflexivity].
    intros b Hb. injection Hb as <-. simpl. tauto.
Defined.

Lemma handle_delete_source_db_instance_exact_witness :
  let m := set_bgd (ex_upgrade_model true true)
             (ex_phase_gateway.(gw_get_blue_green_deployment) "test-rds" 2%nat) in
  handle ex_phase_gateway 3
    (SimpleAction AT_DELETE_SOURCE_DB_INSTANCE DELETING_SOURCE_DB_INSTANCES)
    {| world := 2%nat; calls := []; model := Some m |} =
  Ok (tt, {| world := 3%nat;
             calls := [Call_get_db_instance "test-rds-old";
                       Call_delete_db_instance "test-rds-old"];
             model := Some (set_source_db_instances m [ex_named_instance "test-rds-old"]) |}).
Proof.
  intros m.
  exact (handle_delete_source_db_instance_exact ex_phase_gateway 3
           (SimpleAction AT_DELETE_SOURCE_DB_INSTANCE DELETING_SOURCE_DB_INSTANCES)
           {| world := 2%nat; calls := []; model := Some m |} eq_refl).
Defined.

Lemma bgd_mutation_handlers_exact_witness :
  let m := set_bgd (ex_upgrade_model true true) (Some (ex_bgd "AVAILABLE")) in
  let s := {| world := tt; calls := []; model := Some m |} in
  handle ex_gateway 3 (SimpleAction AT_SWITCHOVER SWITCHOVER_IN_PROGRESS) s =
  Ok (tt, {| world := tt; calls := [Call_switchover_blue_green_deployment "bgd-id"];
             model := Some m |}) /\
  handle ex_gateway 3 (SimpleAction AT_DELETE_WITHOUT_SWITCHOVER DELETING) s =
  Ok (tt, {| world := tt; calls := [Call_delete_blue_green_deployment "bgd-id" (Some true)];
             model := Some m |}).
Proof.
  intros m s.
  destruct (bgd_mutation_handlers_exact ex_gateway 3
              (SimpleAction AT_SWITCHOVER SWITCHOVER_IN_PROGRESS) s m (ex_bgd "AVAILABLE")
              eq_refl eq_refl) as [Hsw _].
  destruct (bgd_mutation_handlers_exact ex_gateway 3
              (SimpleAction AT_DELETE_WITHOUT_SWITCHOVER DELETING) s m (ex_bgd "AVAILABLE")
              eq_refl eq_refl) as [_ [_ Hdw]].
  split; [exact (proj1 (Hsw eq_refl)) | exact (proj1 (Hdw eq_refl))].
Defined.

Lemma handlers_assert_model_witness :
  handle ex_gateway 3 (SimpleAction AT_DELETE DELETING) ex_mstate = Err AssertionError /\
  handle ex_gateway 3 (SimpleAction AT_SWITCHOVER SWITCHOVER_IN_PROGRESS)
    {| world := tt; calls := []; model := Some (ex_upgrade_model true true) |} =
    Err AssertionError.
Proof.
  split.
  - apply (proj1 (handlers_assert_model ex_gateway 3 _ ex_mstate)); [reflexivity|].
    simpl. tauto.
  - apply (proj2 (handlers_assert_model ex_gateway 3 _ _) (ex_upgrade_model true true));
      [reflexivity | reflexivity | simpl; tauto].
Defined.

Lemma wait_handlers_sleep_and_read_witness :
  let s := {| world := tt; calls := [];
              model := Some (set_bgd (ex_upgrade_model true true) (Some (ex_bgd "DELETING"))) |} in
  let s' := ex_final (handle ex_gateway 3 (SimpleAction AT_WAIT_FOR_DELETED NO_OP) s) s in
  handle ex_gateway 3 (SimpleAction AT_WAIT_FOR_DELETED NO_OP) s = Ok (tt, s') /\
  (exists n, world s' = Nat.iter n (gw_sleep ex_gateway 60) (world s)) /\
  exists new, calls s' = (calls s ++ new)%list /\
              forallb (fun c => negb (is_mutating c)) new = true.
Proof.
  intros s s'.
  assert (E : handle ex_gateway 3 (SimpleAction AT_WAIT_FOR_DELETED NO_OP) s = Ok (tt, s'))
    by (vm_compute; reflexivity).
  split; [exact E|].
  apply (wait_handlers_sleep_and_read ex_gateway 3 (SimpleAction AT_WAIT_FOR_DELETED NO_OP) s s');
    [simpl; tauto | exact E].
Defined.

Lemma run_real_returns_planned_state_witness :
  let inp := ex_input (Some (ex_config true true (Some (ex_target_engine_version "16.3")))) in
  let s := {| world := 0%nat; calls := []; model := None |} in
  let s' := ex_final (run ex_phase_gateway inp false 3 s) s in
  run ex_phase_gateway inp false 3 s = Ok (NO_OP, s') /\
  (NO_OP = NOT_ENABLED \/
   exists cfg m acts s1,
     data_blue_green_deployment inp = Some cfg /\ BlueGreenDeployment.enabled cfg = true /\
     _build_model ex_phase_gateway inp cfg s = Ok (m, s1) /\ plan_actions m = Ok acts /\
     NO_OP = last (map next_state acts) (state m)).
Proof.
  intros inp s s'.
  assert (E : run ex_phase_gateway inp false 3 s = Ok (NO_OP, s')) by (vm_compute; reflexivity).
  split; [exact E|]. exact (run_real_returns_planned_state ex_phase_gateway inp 3 s s' NO_OP E).
Defined.
